(** * elogrus: a logrus hook shipping log records to ElasticSearch

    Shallow embedding of [hook.go] and the properties of its dispatch
    pipeline: severity filter, index bootstrap at construction, document
    composition, synchronous and asynchronous dispatch.

    Go pointers ([*logrus.Entry], [*ElasticHook]) and Go maps
    ([logrus.Fields]) are references into an explicit store, so that the
    in-place update done by [syncFireFunc] is visible to every holder of the
    reference.  Calls to the backend client and to the index resolver are
    state transformers; each of them is also appended to an observation
    trace.  A runtime panic (nil dereference) is the [None] outcome of the
    monad.

    Code the hook receives from its caller acts on state of its own: an
    index resolver on its environment, the backend client on the backend,
    and a composer reads the record it is given.  A goroutine started by
    the asynchronous mode waits in the state until the scheduler runs it,
    in one step, at any later point. *)

From Stdlib Require Import NArith List String Ascii.
From stdpp Require Import gmap strings list fin_maps.

Local Open Scope string_scope.
Local Open Scope N_scope.
Local Open Scope list_scope.

(** ** logrus severities *)

(** [logrus.Level] is a [uint32]; the six named constants are 0..5. *)
Definition logrus_Level := N.

Definition logrus_PanicLevel : logrus_Level := 0.
Definition logrus_FatalLevel : logrus_Level := 1.
Definition logrus_ErrorLevel : logrus_Level := 2.
Definition logrus_WarnLevel : logrus_Level := 3.
Definition logrus_InfoLevel : logrus_Level := 4.
Definition logrus_DebugLevel : logrus_Level := 5.

(** The slice literal ranged over by the loop of [newHookFuncAndFireFunc]. *)
Definition rangedLevels : list logrus_Level :=
  [ logrus_PanicLevel; logrus_FatalLevel; logrus_ErrorLevel;
    logrus_WarnLevel; logrus_InfoLevel; logrus_DebugLevel ].

(** One iteration of the loop body: [if l <= level { levels = append(levels, l) }]. *)
Definition appendIfEnabled (level : logrus_Level) (levels : list logrus_Level)
    (l : logrus_Level) : list logrus_Level :=
  if l <=? level then levels ++ [l] else levels.

(** The whole loop, started from the empty slice. *)
Definition enabledLevels (level : logrus_Level) : list logrus_Level :=
  fold_left (appendIfEnabled level) rangedLevels [].

(** ** Errors and dynamically typed values *)

(** Values of Go's [error] interface.  [ErrCannotCreateIndex] is the
    package-level sentinel; every other error value is identified by [id]
    (two errors with the same text need not be the same value) and carries
    the text its [Error()] method returns. *)
Inductive error : Type :=
  | ErrCannotCreateIndex
  | ErrOther (id : N) (msg : string).

Definition Error (e : error) : string :=
  match e with
  | ErrCannotCreateIndex => "Cannot create index"
  | ErrOther _ msg => msg
  end.

#[global] Instance error_eq_dec : EqDecision error.
Proof. solve_decision. Defined.

(** [interface{}] values stored in [logrus.Fields].  [VNil] is the nil
    interface; [VError] is a value whose dynamic type implements [error]. *)
Inductive value : Type :=
  | VNil
  | VBool (b : bool)
  | VInt (z : Z)
  | VString (s : string)
  | VError (e : error).

#[global] Instance value_eq_dec : EqDecision value.
Proof. solve_decision. Defined.

(** [logrus.Fields] is [map[string]interface{}]. *)
Abbreviation logrus_Fields := (gmap string value).

(** [logrus.ErrorKey] *)
Definition logrus_ErrorKey : string := "error".

(** [time.RFC3339Nano] *)
Definition time_RFC3339Nano : string := "2006-01-02T15:04:05.999999999Z07:00".

(** Store addresses. *)
Definition loc := nat.

(** The anonymous struct built by [defaultMessageCreator].  [Data] holds the
    record's map itself (a reference), not a copy. *)
Record Document : Type := mkDocument {
  Host : string;
  Timestamp : string;
  Message : string;
  Data : option loc;
  Level : string
}.

(** What a composer may return ([interface{}]): the default document, or
    any other body. *)
Inductive message : Type :=
  | MsgDocument (d : Document)
  | MsgOther (body : string).

(** A body as the backend receives it: the map reference of a document is
    followed when the request is serialised. *)
Inductive wire : Type :=
  | WireDocument (host timestamp msg : string) (data : option (gmap string value))
      (level : string)
  | WireOther (body : string).

(** [elastic.IndicesCreateResult], the field the hook reads. *)
Record IndicesCreateResult : Type := { Acknowledged : bool }.

(** The two values ever stored in the hook's [fireFunc] field. *)
Inductive FireMode : Type := SyncFire | AsyncFire.

(** Calls observed at the hook's boundary, in the order they happen. *)
Inductive Event : Type :=
  | EvResolve (name : string)
  | EvIndexExists (name : string) (ctxDone : bool)
  | EvCreateIndex (name : string) (ctxDone : bool)
  | EvIndex (name typ : string) (body : wire) (ctxDone : bool) (result : option error).

(** ** Library operations the hook calls but does not define

    [time.Time] with its [UTC] and [Format] methods, [logrus.Level.String]
    and [strings.ToUpper] belong to imported packages; the hook is
    parametric in them. *)
Class GoLib (GoTime : Type) : Type := {
  time_UTC : GoTime -> GoTime;
  time_Format : GoTime -> string -> string;
  Level_String : logrus_Level -> string;
  strings_ToUpper : string -> string
}.

(** ** The program state and the hook *)

Section Model.

Context {GoTime Env Backend : Type}.

(** [logrus.Entry], the fields the hook reads.  [Entry_Data] is a map
    reference; [None] is the nil map. *)
Record logrus_Entry : Type := mkEntry {
  Entry_Data : option loc;
  Entry_Time : GoTime;
  Entry_Level : logrus_Level;
  Entry_Message : string
}.

(** [IndexNameFunc func() string]: a closure over state of its own (a clock,
    a counter), here [Env]. *)
Definition IndexNameFunc : Type := Env -> string * Env.

(** [MessageCreatorFunc func(entry *logrus.Entry, hook *ElasticHook) interface{}].
    A composer reads the record, the current contents of the record's map
    and, of the hook, what [GetHost] exposes. *)
Definition MessageCreatorFunc : Type :=
  logrus_Entry -> option (gmap string value) -> string -> message.

(** The three requests the hook sends through [*elastic.Client], each run
    with [.Do(ctx)]: the backend sees the request's arguments and whether
    the context is already cancelled, and may change state. *)
Record Client : Type := mkClient {
  IndexExists_Do : string -> bool -> Backend -> (bool * option error) * Backend;
  CreateIndex_Do : string -> bool -> Backend ->
                   (option IndicesCreateResult * option error) * Backend;
  Index_Do : string -> string -> wire -> bool -> Backend -> option error * Backend
}.

(** [ElasticHook].  [ctx] names a cell of the context store and
    [ctxCancel] the cell its call cancels. *)
Record ElasticHook : Type := mkElasticHook {
  client : Client;
  host : string;
  index : IndexNameFunc;
  levels : list logrus_Level;
  ctx : nat;
  ctxCancel : nat;
  fireFunc : FireMode;
  messageCreator : MessageCreatorFunc
}.

(** The arguments of a [go syncFireFunc(entry, hook, indexName)] statement,
    evaluated when the statement runs. *)
Record Goroutine : Type := mkGoroutine {
  go_entry : loc;
  go_hook : loc;
  go_indexName : string
}.

Record World : Type := mkWorld {
  env : Env;                               (* what index resolvers read *)
  backend : Backend;                       (* the ElasticSearch side *)
  ctxs : list bool;                        (* contexts: [true] once cancelled *)
  entries : gmap loc logrus_Entry;         (* *logrus.Entry *)
  maps : gmap loc (gmap string value);     (* logrus.Fields objects *)
  hooks : list ElasticHook;                (* *ElasticHook, address = position *)
  goroutines : list Goroutine;             (* started, not yet run *)
  trace : list Event
}.

(** *** State and panic monad *)

Definition M (A : Type) : Type := World -> option (A * World).

Definition ret {A} (a : A) : M A := fun w => Some (a, w).

Definition bind {A B} (m : M A) (k : A -> M B) : M B :=
  fun w => match m w with
           | Some (a, w') => k a w'
           | None => None
           end.

Definition panic {A} : M A := fun _ => None.

End Model.

Arguments logrus_Entry : clear implicits.
Arguments IndexNameFunc : clear implicits.
Arguments MessageCreatorFunc : clear implicits.
Arguments Client : clear implicits.
Arguments ElasticHook : clear implicits.
Arguments World : clear implicits.
Arguments M : clear implicits.

Declare Scope go_scope.
Delimit Scope go_scope with go.
Notation "x <- c1 ;; c2" := (bind c1 (fun x => c2))
  (at level 100, c1 at next level, right associativity) : go_scope.
Notation "c1 ;; c2" := (bind c1 (fun _ => c2))
  (at level 100, right associativity) : go_scope.
Local Open Scope go_scope.

Section Hook.

Context {GoTime Env Backend : Type} {lib : GoLib GoTime}.

Local Abbreviation Go := (M GoTime Env Backend).
Local Abbreviation hook_t := (ElasticHook GoTime Env Backend).

(** *** Primitive steps *)

(** Record a call in the observation trace. *)
Definition observe (ev : Event) : Go unit := fun w =>
  Some (tt, mkWorld (env w) (backend w) (ctxs w) (entries w) (maps w) (hooks w)
                    (goroutines w) (trace w ++ [ev])).

(** [*entry]: a nil or dangling pointer panics. *)
Definition deref_entry (entry : loc) : Go (logrus_Entry GoTime) := fun w =>
  match entries w !! entry with
  | Some e => Some (e, w)
  | None => None
  end.

(** [*hook] *)
Definition deref_hook (hook : loc) : Go hook_t := fun w =>
  match hooks w !! hook with
  | Some h => Some (h, w)
  | None => None
  end.

(** [&ElasticHook{...}]: a fresh cell. *)
Definition new_ElasticHook (h : hook_t) : Go loc := fun w =>
  Some (length (hooks w),
        mkWorld (env w) (backend w) (ctxs w) (entries w) (maps w) (hooks w ++ [h])
                (goroutines w) (trace w)).

(** [*hook = h] *)
Definition store_hook (hook : loc) (h : hook_t) : Go unit := fun w =>
  Some (tt, mkWorld (env w) (backend w) (ctxs w) (entries w) (maps w)
                    (<[hook := h]> (hooks w)) (goroutines w) (trace w)).

(** The contents of a map value; reading a nil map finds nothing. *)
Definition read_map (m : option loc) : Go (option (gmap string value)) := fun w =>
  Some (m ≫= (fun l => maps w !! l), w).

(** [m[k] = v] on the map object at [l]. *)
Definition map_assign (l : loc) (k : string) (v : value) : Go unit := fun w =>
  Some (tt, mkWorld (env w) (backend w) (ctxs w) (entries w)
                    (alter (fun m => <[k := v]> m) l (maps w)) (hooks w)
                    (goroutines w) (trace w)).

(** A call [indexFunc()]. *)
Definition call_IndexNameFunc (indexFunc : IndexNameFunc Env) : Go string := fun w =>
  let (name, env') := indexFunc (env w) in
  Some (name, mkWorld env' (backend w) (ctxs w) (entries w) (maps w) (hooks w)
                      (goroutines w) (trace w ++ [EvResolve name])).

(** [context.WithCancel(context.TODO())]: a fresh, live context; the
    returned number stands for both [ctx] and [cancel]. *)
Definition context_WithCancel : Go nat := fun w =>
  Some (length (ctxs w),
        mkWorld (env w) (backend w) (ctxs w ++ [false]) (entries w) (maps w) (hooks w)
                (goroutines w) (trace w)).

(** [cancel()] *)
Definition cancel (c : nat) : Go unit := fun w =>
  Some (tt, mkWorld (env w) (backend w) (<[c := true]> (ctxs w)) (entries w) (maps w)
                    (hooks w) (goroutines w) (trace w)).

(** Whether [ctx.Done()] is closed. *)
Definition ctx_done (c : nat) (cs : list bool) : bool :=
  default false (cs !! c).

(** Run a backend request against the backend state. *)
Definition backend_call {A} (f : Backend -> A * Backend) : Go A := fun w =>
  let (a, b') := f (backend w) in
  Some (a, mkWorld (env w) b' (ctxs w) (entries w) (maps w) (hooks w)
                   (goroutines w) (trace w)).

(** [client.IndexExists(name).Do(ctx)] *)
Definition client_IndexExists (cl : Client Backend) (name : string) (c : nat)
    : Go (bool * option error) := fun w =>
  (observe (EvIndexExists name (ctx_done c (ctxs w))) ;;
   backend_call (IndexExists_Do cl name (ctx_done c (ctxs w)))) w.

(** [client.CreateIndex(name).Do(ctx)] *)
Definition client_CreateIndex (cl : Client Backend) (name : string) (c : nat)
    : Go (option IndicesCreateResult * option error) := fun w =>
  (observe (EvCreateIndex name (ctx_done c (ctxs w))) ;;
   backend_call (CreateIndex_Do cl name (ctx_done c (ctxs w)))) w.

(** JSON serialisation of a body follows the document's map reference. *)
Definition serialise (msg : message) (ms : gmap loc (gmap string value)) : wire :=
  match msg with
  | MsgDocument d =>
      WireDocument (Host d) (Timestamp d) (Message d)
                   (Data d ≫= (fun l => ms !! l)) (Level d)
  | MsgOther body => WireOther body
  end.

(** [client.Index().Index(name).Type(typ).BodyJson(msg).Do(ctx)]; the
    returned response is dropped by the caller, the error is kept. *)
Definition client_Index (cl : Client Backend) (name typ : string) (msg : message)
    (c : nat) : Go (option error) := fun w =>
  (err <- backend_call
            (Index_Do cl name typ (serialise msg (maps w)) (ctx_done c (ctxs w))) ;;
   observe (EvIndex name typ (serialise msg (maps w)) (ctx_done c (ctxs w)) err) ;;
   ret err) w.

(** A [go] statement with its arguments already evaluated. *)
Definition spawn (g : Goroutine) : Go unit := fun w =>
  Some (tt, mkWorld (env w) (backend w) (ctxs w) (entries w) (maps w) (hooks w)
                    (goroutines w ++ [g]) (trace w)).

(** *** hook.go *)

(** [defaultMessageCreator] *)
Definition defaultMessageCreator : MessageCreatorFunc GoTime :=
  fun entry _ hook_host =>
    let level := Level_String (Entry_Level entry) in
    MsgDocument {|
      Host := hook_host;
      Timestamp := time_Format (time_UTC (Entry_Time entry)) time_RFC3339Nano;
      Message := Entry_Message entry;
      Data := Entry_Data entry;
      Level := strings_ToUpper level
    |}.

(** The first statement of [syncFireFunc]:
    [if e, ok := entry.Data[logrus.ErrorKey]; ok && e != nil {
       if err, ok := e.(error); ok { entry.Data[logrus.ErrorKey] = err.Error() } }]
    A missing key, the nil interface and a value that is not an error all
    skip the assignment. *)
Definition normaliseError (e : logrus_Entry GoTime) : Go unit :=
  fields <- read_map (Entry_Data e) ;;
  match Entry_Data e, fields ≫= (fun m => m !! logrus_ErrorKey) with
  | Some l, Some (VError err) => map_assign l logrus_ErrorKey (VString (Error err))
  | _, _ => ret tt
  end.

(** [syncFireFunc]; the [indexName] argument is not used by the body, the
    resolver is called again for the write. *)
Definition syncFireFunc (entry hook : loc) (indexName : string) : Go (option error) :=
  e <- deref_entry entry ;;
  normaliseError e ;;
  h <- deref_hook hook ;;
  fields <- read_map (Entry_Data e) ;;
  let msg := messageCreator h e fields (host h) in
  name <- call_IndexNameFunc (index h) ;;
  client_Index (client h) name "log" msg (ctx h).

(** [asyncFireFunc]: the [go] statement evaluates [hook.index()] in the
    caller, then the call itself runs later. *)
Definition asyncFireFunc (entry hook : loc) (indexName : string) : Go (option error) :=
  h <- deref_hook hook ;;
  name <- call_IndexNameFunc (index h) ;;
  spawn (mkGoroutine entry hook name) ;;
  ret None.

(** The scheduler runs the [i]-th started goroutine to completion; what
    [syncFireFunc] returns there goes nowhere. *)
Definition run_goroutine (i : nat) : Go unit := fun w =>
  match goroutines w !! i with
  | None => Some (tt, w)
  | Some g =>
      (syncFireFunc (go_entry g) (go_hook g) (go_indexName g) ;; ret tt)
        (mkWorld (env w) (backend w) (ctxs w) (entries w) (maps w) (hooks w)
                 (delete i (goroutines w)) (trace w))
  end.

(** [ElasticHook.Fire] *)
Definition Fire (hook entry : loc) : Go (option error) :=
  h <- deref_hook hook ;;
  name <- call_IndexNameFunc (index h) ;;
  match fireFunc h with
  | SyncFire => syncFireFunc entry hook name
  | AsyncFire => asyncFireFunc entry hook name
  end.

(** [newHookFuncAndFireFunc]; the result pair is the hook pointer and the error. *)
Definition newHookFuncAndFireFunc (cl : Client Backend) (hook_host : string)
    (level : logrus_Level) (indexFunc : IndexNameFunc Env) (fire : FireMode)
    : Go (option loc * option error) :=
  let levels := enabledLevels level in
  c <- context_WithCancel ;;
  let ready : Go (option loc * option error) :=
    hook <- new_ElasticHook {|
      client := cl;
      host := hook_host;
      index := indexFunc;
      levels := levels;
      ctx := c;
      ctxCancel := c;
      fireFunc := fire;
      messageCreator := defaultMessageCreator
    |} ;;
    ret (Some hook, None) in
  name <- call_IndexNameFunc indexFunc ;;
  r <- client_IndexExists cl name c ;;
  match r with
  | (_, Some err) => cancel c ;; ret (None, Some err)
  | (false, None) =>
      name' <- call_IndexNameFunc indexFunc ;;
      r' <- client_CreateIndex cl name' c ;;
      match r' with
      | (_, Some err) => cancel c ;; ret (None, Some err)
      | (None, None) => panic
      | (Some createIndex, None) =>
          if negb (Acknowledged createIndex)
          then cancel c ;; ret (None, Some ErrCannotCreateIndex)
          else ready
      end
  | (true, None) => ready
  end.

(** [NewElasticHookWithFunc] *)
Definition NewElasticHookWithFunc (cl : Client Backend) (hook_host : string)
    (level : logrus_Level) (indexFunc : IndexNameFunc Env)
    : Go (option loc * option error) :=
  newHookFuncAndFireFunc cl hook_host level indexFunc SyncFire.

(** [NewAsyncElasticHookWithFunc] *)
Definition NewAsyncElasticHookWithFunc (cl : Client Backend) (hook_host : string)
    (level : logrus_Level) (indexFunc : IndexNameFunc Env)
    : Go (option loc * option error) :=
  newHookFuncAndFireFunc cl hook_host level indexFunc AsyncFire.

(** [NewElasticHook]: the resolver is the constant closure. *)
Definition NewElasticHook (cl : Client Backend) (hook_host : string)
    (level : logrus_Level) (index_name : string) : Go (option loc * option error) :=
  NewElasticHookWithFunc cl hook_host level (fun e => (index_name, e)).

(** [NewAsyncElasticHook] *)
Definition NewAsyncElasticHook (cl : Client Backend) (hook_host : string)
    (level : logrus_Level) (index_name : string) : Go (option loc * option error) :=
  NewAsyncElasticHookWithFunc cl hook_host level (fun e => (index_name, e)).

(** [ElasticHook.Levels] *)
Definition Levels (hook : loc) : Go (list logrus_Level) :=
  h <- deref_hook hook ;; ret (levels h).

(** [ElasticHook.Cancel] *)
Definition Cancel (hook : loc) : Go unit :=
  h <- deref_hook hook ;; cancel (ctxCancel h).

(** [ElasticHook.SetMessageCreator] *)
Definition SetMessageCreator (hook : loc) (fn : MessageCreatorFunc GoTime) : Go unit :=
  h <- deref_hook hook ;;
  store_hook hook (mkElasticHook (client h) (host h) (index h) (levels h) (ctx h)
                                 (ctxCancel h) (fireFunc h) fn).

(** [ElasticHook.GetHost] *)
Definition GetHost (hook : loc) : Go string :=
  h <- deref_hook hook ;; ret (host h).

(** *** Vocabulary of the properties *)

(** The hook stored by a successful construction. *)
Definition built_hook (cl : Client Backend) (hook_host : string)
    (level : logrus_Level) (indexFunc : IndexNameFunc Env) (fire : FireMode)
    (c : nat) : hook_t := {|
  client := cl;
  host := hook_host;
  index := indexFunc;
  levels := enabledLevels level;
  ctx := c;
  ctxCancel := c;
  fireFunc := fire;
  messageCreator := defaultMessageCreator
|}.

(** What the first statement of [syncFireFunc] does to one map: an
    error value under the designated key becomes its text. *)
Definition normalisedFields (m : gmap string value) : gmap string value :=
  match m !! logrus_ErrorKey with
  | Some (VError err) => <[logrus_ErrorKey := VString (Error err)]> m
  | _ => m
  end.

(** ... and to the store of maps, for a record whose [Data] is [d]. *)
Definition normalisedMaps (d : option loc) (ms : gmap loc (gmap string value))
    : gmap loc (gmap string value) :=
  match d with
  | Some l => match ms !! l with
              | Some m => <[l := normalisedFields m]> ms
              | None => ms
              end
  | None => ms
  end.

(** The footprint of the dispatch path on the program's store, for the
    record [e] it was given: records and hooks are as before, every map
    other than the record's is as before, and in the record's map only the
    designated key may differ, where an error value has become its text. *)
Definition only_error_key_changed (e : logrus_Entry GoTime)
    (w w' : World GoTime Env Backend) : Prop :=
  entries w' = entries w
  /\ hooks w' = hooks w
  /\ (forall l' : loc, Entry_Data e <> Some l' -> maps w' !! l' = maps w !! l')
  /\ (forall (l : loc) (m : gmap string value),
        Entry_Data e = Some l -> maps w !! l = Some m ->
        exists m' : gmap string value,
          maps w' !! l = Some m'
          /\ (forall k : string, k <> logrus_ErrorKey -> m' !! k = m !! k)
          /\ (forall err, m !! logrus_ErrorKey = Some (VError err) ->
                m' !! logrus_ErrorKey = Some (VString (Error err)))
          /\ ((forall err, m !! logrus_ErrorKey <> Some (VError err)) -> m' = m)).

(** The body the default composer sends for record [e], given the contents
    [data] of the record's map when the request is serialised. *)
Definition default_wire (h : hook_t) (e : logrus_Entry GoTime)
    (data : option (gmap string value)) : wire :=
  WireDocument (host h)
               (time_Format (time_UTC (Entry_Time e)) time_RFC3339Nano)
               (Entry_Message e) data
               (strings_ToUpper (Level_String (Entry_Level e))).

End Hook.

(** ** A concrete platform and small programs to run the model on *)

(** [logrus.Level.String] as logrus defines it for its six levels. *)
Definition logrus_Level_String (l : logrus_Level) : string :=
  match l with
  | 0 => "panic"
  | 1 => "fatal"
  | 2 => "error"
  | 3 => "warning"
  | 4 => "info"
  | 5 => "debug"
  | _ => "unknown"
  end.

(** Upper-casing of one ASCII letter; other bytes are kept. *)
Definition ascii_ToUpper (c : ascii) : ascii :=
  let n := N_of_ascii c in
  if (97 <=? n) && (n <=? 122) then ascii_of_N (n - 32) else c.

(** [strings.ToUpper] on ASCII text. *)
Fixpoint ascii_string_ToUpper (s : string) : string :=
  match s with
  | EmptyString => EmptyString
  | String c s' => String (ascii_ToUpper c) (ascii_string_ToUpper s')
  end.

(** A stand-in clock for running examples: an instant is the text of its
    UTC rendering, so [UTC] and [Format] have nothing left to do. *)
Definition example_lib : GoLib string := {|
  time_UTC := fun t => t;
  time_Format := fun t _ => t;
  Level_String := logrus_Level_String;
  strings_ToUpper := ascii_string_ToUpper
|}.

(** A backend stub without state that gives fixed answers. *)
Definition stub_client (exists_ : bool * option error)
    (create : option IndicesCreateResult * option error)
    (write : option error) : Client unit := {|
  IndexExists_Do := fun _ _ b => (exists_, b);
  CreateIndex_Do := fun _ _ b => (create, b);
  Index_Do := fun _ _ _ _ b => (write, b)
|}.

(** A resolver that reads the index name of the day from its environment. *)
Definition daily_index : IndexNameFunc string := fun e => (e, e).

(** The environment moves on between two calls of the host program. *)
Definition set_env {GoTime Env Backend : Type} (x : Env) : M GoTime Env Backend unit :=
  fun w => Some (tt, mkWorld x (backend w) (ctxs w) (entries w) (maps w) (hooks w)
                             (goroutines w) (trace w)).

Definition boom : error := ErrOther 1 "boom".
Definition refused : error := ErrOther 2 "connection refused".

(** A record with a raw error in its designated field, and its map. *)
Definition example_entry : logrus_Entry string :=
  mkEntry (Some 7%nat) "2017-03-01T10:00:00.000000001Z" logrus_InfoLevel "disk full".

Definition example_fields : gmap string value :=
  <["error" := VError boom]> (<["user" := VString "ann"]> ∅).

(** The world before any hook exists: one record, its map, nothing else. *)
Definition example_world : World string string unit := {|
  env := "logs-1";
  backend := tt;
  ctxs := [];
  entries := <[3%nat := example_entry]> ∅;
  maps := <[7%nat := example_fields]> ∅;
  hooks := [];
  goroutines := [];
  trace := []
|}.

(** The index names of the write requests in a trace. *)
Definition write_targets (t : list Event) : list string :=
  omap (fun ev => match ev with EvIndex name _ _ _ _ => Some name | _ => None end) t.

(** The create requests in a trace. *)
Definition create_requests (t : list Event) : list string :=
  omap (fun ev => match ev with EvCreateIndex name _ => Some name | _ => None end) t.

(** A hook as [newHookFuncAndFireFunc] builds it, over the stub backend. *)
Definition example_hook (fire : FireMode) (write : option error)
    : ElasticHook string string unit := {|
  client := stub_client (true, None) (None, None) write;
  host := "web-1";
  index := daily_index;
  levels := enabledLevels logrus_WarnLevel;
  ctx := 0%nat;
  ctxCancel := 0%nat;
  fireFunc := fire;
  messageCreator := @defaultMessageCreator string example_lib
|}.

(** [example_world] once such a hook is installed. *)
Definition example_ready (fire : FireMode) (write : option error)
    : World string string unit := {|
  env := "logs-1";
  backend := tt;
  ctxs := [false];
  entries := <[3%nat := example_entry]> ∅;
  maps := <[7%nat := example_fields]> ∅;
  hooks := [example_hook fire write];
  goroutines := [];
  trace := []
|}.

(** A second record, without a field map. *)
Definition example_entry2 : logrus_Entry string :=
  mkEntry None "2017-03-01T10:00:01Z" logrus_WarnLevel "retrying".

(** [example_ready] with both records. *)
Definition example_pair (fire : FireMode) (write : option error)
    : World string string unit := {|
  env := "logs-1";
  backend := tt;
  ctxs := [false];
  entries := <[4%nat := example_entry2]> (<[3%nat := example_entry]> ∅);
  maps := <[7%nat := example_fields]> ∅;
  hooks := [example_hook fire write];
  goroutines := [];
  trace := []
|}.

(** A composer that sends the record's message alone. *)
Definition message_only : MessageCreatorFunc string :=
  fun entry _ _ => MsgOther (Entry_Message entry).

(** ** Programs of the host application

    What a program holding hooks and records can do, one step at a time:
    call the constructor or a method of a hook, assign into a field map it
    holds, let time pass for the resolvers, or have the scheduler run a
    started goroutine. *)

Section Calls.

Context {GoTime Env Backend : Type} {lib : GoLib GoTime}.

Inductive Call : Type :=
  | DoNew (cl : Client Backend) (hook_host : string) (level : logrus_Level)
      (indexFunc : IndexNameFunc Env) (fire : FireMode)
  | DoFire (hook entry : loc)
  | DoLevels (hook : loc)
  | DoCancel (hook : loc)
  | DoSetMessageCreator (hook : loc) (fn : MessageCreatorFunc GoTime)
  | DoGetHost (hook : loc)
  | DoAssign (l : loc) (k : string) (v : value)
  | DoSetEnv (x : Env)
  | DoSchedule (i : nat).

(** One step; what the call returns is dropped. *)
Definition run_call (c : Call) : M GoTime Env Backend unit :=
  match c with
  | DoNew cl hook_host level indexFunc fire =>
      newHookFuncAndFireFunc cl hook_host level indexFunc fire ;; ret tt
  | DoFire hook entry => Fire hook entry ;; ret tt
  | DoLevels hook => Levels hook ;; ret tt
  | DoCancel hook => Cancel hook
  | DoSetMessageCreator hook fn => SetMessageCreator hook fn
  | DoGetHost hook => GetHost hook ;; ret tt
  | DoAssign l k v => map_assign l k v
  | DoSetEnv x => set_env x
  | DoSchedule i => run_goroutine i
  end.

(** A sequence of steps; a panic in one of them ends the program. *)
Fixpoint run_calls (cs : list Call) : M GoTime Env Backend unit :=
  match cs with
  | [] => ret tt
  | c :: cs' => run_call c ;; run_calls cs'
  end.

(** [Fire] on each record of a list, in order, keeping the results. *)
Fixpoint fire_all (hook : loc) (es : list loc)
    : M GoTime Env Backend (list (option error)) :=
  match es with
  | [] => ret []
  | entry :: es' =>
      r <- Fire hook entry ;;
      rs <- fire_all hook es' ;;
      ret (r :: rs)
  end.

(** Two states of a hook that differ at most in the composer. *)
Definition same_config (h h' : ElasticHook GoTime Env Backend) : Prop :=
  client h' = client h /\ host h' = host h /\ index h' = index h
  /\ levels h' = levels h /\ ctx h' = ctx h /\ ctxCancel h' = ctxCancel h
  /\ fireFunc h' = fireFunc h.


End Calls.

(** The bodies of the write requests in a trace. *)
Definition written_bodies (t : list Event) : list wire :=
  omap (fun ev => match ev with EvIndex _ _ body _ _ => Some body | _ => None end) t.

(** The [Message] fields of the documents written in a trace. *)
Definition written_messages (t : list Event) : list string :=
  omap (fun body => match body with
                    | WireDocument _ _ msg _ _ => Some msg
                    | WireOther _ => None
                    end) (written_bodies t).

(** The context flags the write requests in a trace were sent with. *)
Definition write_ctx_flags (t : list Event) : list bool :=
  omap (fun ev => match ev with EvIndex _ _ _ done _ => Some done | _ => None end) t.

(** ** Properties *)

Section Properties.

Context {GoTime Env Backend : Type} {lib : GoLib GoTime}.

Local Abbreviation Go := (M GoTime Env Backend).
Local Abbreviation world := (World GoTime Env Backend).
Local Abbreviation hook_t := (ElasticHook GoTime Env Backend).

(** *** Severity filter *)

Lemma fold_appendIfEnabled (level : logrus_Level) (ls acc : list logrus_Level) :
  fold_left (appendIfEnabled level) ls acc
  = acc ++ filter (fun l => (l <= level)%N) ls.
Proof.
  revert acc. induction ls as [|l ls IH]; intros acc; simpl.
  - by rewrite app_nil_r.
  - rewrite IH. unfold appendIfEnabled. rewrite filter_cons.
    destruct (N.leb_spec l level); case_decide; try lia.
    + by rewrite <- app_assoc.
    + done.
Qed.

Lemma enabledLevels_filter (level : logrus_Level) :
  enabledLevels level = filter (fun l => (l <= level)%N) rangedLevels.
Proof. apply (fold_appendIfEnabled level rangedLevels []). Qed.

(** *** Running the constructor *)

(** The context allocated by the constructor is live until cancelled. *)
Lemma fresh_ctx_live (cs : list bool) : default false ((cs ++ [false]) !! length cs) = false.
Proof. by rewrite lookup_app_r, Nat.sub_diag by lia. Qed.

Lemma fresh_ctx_cancelled (cs : list bool) :
  <[length cs := true]> (cs ++ [false]) !! length cs = Some true.
Proof. apply list_lookup_insert_eq. rewrite length_app. simpl. lia. Qed.

(** Unfold the monadic steps of the model and the store projections. *)
Ltac go_run :=
  cbv [newHookFuncAndFireFunc NewElasticHookWithFunc NewAsyncElasticHookWithFunc
       NewElasticHook NewAsyncElasticHook Fire syncFireFunc asyncFireFunc
       normaliseError Levels Cancel SetMessageCreator GetHost
       bind ret panic observe deref_entry deref_hook new_ElasticHook store_hook
       read_map map_assign call_IndexNameFunc context_WithCancel cancel
       backend_call client_IndexExists client_CreateIndex client_Index spawn
       ctx_done];
  cbn [env backend ctxs entries maps hooks goroutines trace].

(** Construction when the existence query fails. *)
Lemma newHook_exists_error (cl : Client Backend) (hook_host : string)
    (level : logrus_Level) (indexFunc : IndexNameFunc Env) (fire : FireMode)
    (w : world) name env1 ex err b1 :
  indexFunc (env w) = (name, env1) ->
  IndexExists_Do cl name false (backend w) = ((ex, Some err), b1) ->
  newHookFuncAndFireFunc cl hook_host level indexFunc fire w
  = Some ((None, Some err),
          mkWorld env1 b1 (<[length (ctxs w) := true]> (ctxs w ++ [false]))
                  (entries w) (maps w) (hooks w) (goroutines w)
                  (trace w ++ [EvResolve name; EvIndexExists name false])).
Proof.
  intros Hname Hex. go_run.
  rewrite Hname. go_run. rewrite fresh_ctx_live, Hex. go_run.
  destruct ex; by rewrite <- app_assoc.
Qed.

(** Construction when the index is reported present. *)
Lemma newHook_present (cl : Client Backend) (hook_host : string)
    (level : logrus_Level) (indexFunc : IndexNameFunc Env) (fire : FireMode)
    (w : world) name env1 b1 :
  indexFunc (env w) = (name, env1) ->
  IndexExists_Do cl name false (backend w) = ((true, None), b1) ->
  newHookFuncAndFireFunc cl hook_host level indexFunc fire w
  = Some ((Some (length (hooks w)), None),
          mkWorld env1 b1 (ctxs w ++ [false]) (entries w) (maps w)
                  (hooks w ++ [built_hook cl hook_host level indexFunc fire
                                          (length (ctxs w))])
                  (goroutines w)
                  (trace w ++ [EvResolve name; EvIndexExists name false])).
Proof.
  intros Hname Hex. go_run.
  rewrite Hname. go_run. rewrite fresh_ctx_live, Hex. go_run.
  by rewrite <- app_assoc.
Qed.

(** Construction when the index is absent and the create request fails. *)
Lemma newHook_create_error (cl : Client Backend) (hook_host : string)
    (level : logrus_Level) (indexFunc : IndexNameFunc Env) (fire : FireMode)
    (w : world) name env1 b1 name' env2 res err b2 :
  indexFunc (env w) = (name, env1) ->
  IndexExists_Do cl name false (backend w) = ((false, None), b1) ->
  indexFunc env1 = (name', env2) ->
  CreateIndex_Do cl name' false b1 = ((res, Some err), b2) ->
  newHookFuncAndFireFunc cl hook_host level indexFunc fire w
  = Some ((None, Some err),
          mkWorld env2 b2 (<[length (ctxs w) := true]> (ctxs w ++ [false]))
                  (entries w) (maps w) (hooks w) (goroutines w)
                  (trace w ++ [EvResolve name; EvIndexExists name false;
                               EvResolve name'; EvCreateIndex name' false])).
Proof.
  intros Hname Hex Hname' Hcr. go_run.
  rewrite Hname. go_run. rewrite fresh_ctx_live, Hex. go_run.
  rewrite Hname'. go_run. rewrite fresh_ctx_live, Hcr. go_run.
  destruct res; by rewrite <- !app_assoc.
Qed.

(** Construction when the index is absent and the create request returns
    a result without error. *)
Lemma newHook_create_answered (cl : Client Backend) (hook_host : string)
    (level : logrus_Level) (indexFunc : IndexNameFunc Env) (fire : FireMode)
    (w : world) name env1 b1 name' env2 createIndex b2 :
  indexFunc (env w) = (name, env1) ->
  IndexExists_Do cl name false (backend w) = ((false, None), b1) ->
  indexFunc env1 = (name', env2) ->
  CreateIndex_Do cl name' false b1 = ((Some createIndex, None), b2) ->
  newHookFuncAndFireFunc cl hook_host level indexFunc fire w
  = let t := trace w ++ [EvResolve name; EvIndexExists name false;
                         EvResolve name'; EvCreateIndex name' false] in
    if Acknowledged createIndex
    then Some ((Some (length (hooks w)), None),
               mkWorld env2 b2 (ctxs w ++ [false]) (entries w) (maps w)
                       (hooks w ++ [built_hook cl hook_host level indexFunc fire
                                               (length (ctxs w))])
                       (goroutines w) t)
    else Some ((None, Some ErrCannotCreateIndex),
               mkWorld env2 b2 (<[length (ctxs w) := true]> (ctxs w ++ [false]))
                       (entries w) (maps w) (hooks w) (goroutines w) t).
Proof.
  intros Hname Hex Hname' Hcr. go_run.
  rewrite Hname. go_run. rewrite fresh_ctx_live, Hex. go_run.
  rewrite Hname'. go_run. rewrite fresh_ctx_live, Hcr. go_run.
  destruct (Acknowledged createIndex); by rewrite <- !app_assoc.
Qed.

(** A create request answering neither a result nor an error makes the
    constructor dereference nil. *)
Lemma newHook_create_nil (cl : Client Backend) (hook_host : string)
    (level : logrus_Level) (indexFunc : IndexNameFunc Env) (fire : FireMode)
    (w : world) name env1 b1 name' env2 b2 :
  indexFunc (env w) = (name, env1) ->
  IndexExists_Do cl name false (backend w) = ((false, None), b1) ->
  indexFunc env1 = (name', env2) ->
  CreateIndex_Do cl name' false b1 = ((None, None), b2) ->
  newHookFuncAndFireFunc cl hook_host level indexFunc fire w = None.
Proof.
  intros Hname Hex Hname' Hcr. go_run.
  rewrite Hname. go_run. rewrite fresh_ctx_live, Hex. go_run.
  rewrite Hname'. go_run. by rewrite fresh_ctx_live, Hcr.
Qed.


(** Every way the constructor can end. *)
Lemma newHook_outcome (cl : Client Backend) (hook_host : string)
    (level : logrus_Level) (indexFunc : IndexNameFunc Env) (fire : FireMode)
    (w : world) r w' :
  newHookFuncAndFireFunc cl hook_host level indexFunc fire w = Some (r, w') ->
  (exists err, r = (None, Some err)
               /\ ctxs w' = <[length (ctxs w) := true]> (ctxs w ++ [false])
               /\ hooks w' = hooks w)
  \/ (r = (Some (length (hooks w)), None)
      /\ ctxs w' = ctxs w ++ [false]
      /\ hooks w' = hooks w ++ [built_hook cl hook_host level indexFunc fire
                                           (length (ctxs w))]).
Proof.
  destruct (indexFunc (env w)) as [name env1] eqn:Hname.
  destruct (IndexExists_Do cl name false (backend w)) as [[ex [err|]] b1] eqn:Hex.
  { rewrite (newHook_exists_error _ _ _ _ _ _ _ _ _ _ _ Hname Hex).
    intros [= <- <-]. left. by exists err. }
  destruct ex.
  { rewrite (newHook_present _ _ _ _ _ _ _ _ _ Hname Hex).
    intros [= <- <-]. by right. }
  destruct (indexFunc env1) as [name' env2] eqn:Hname'.
  destruct (CreateIndex_Do cl name' false b1) as [[res [err|]] b2] eqn:Hcr.
  { rewrite (newHook_create_error _ _ _ _ _ _ _ _ _ _ _ _ _ _ Hname Hex Hname' Hcr).
    intros [= <- <-]. left. by exists err. }
  destruct res as [createIndex|].
  - rewrite (newHook_create_answered _ _ _ _ _ _ _ _ _ _ _ _ _ Hname Hex Hname' Hcr).
    cbv zeta. destruct (Acknowledged createIndex); intros [= <- <-].
    + by right.
    + left. by exists ErrCannotCreateIndex.
  - by rewrite (newHook_create_nil _ _ _ _ _ _ _ _ _ _ _ _ Hname Hex Hname' Hcr).
Qed.

(** *** C1 *)

(** C1. For every threshold, the levels computed by the constructor's loop
    are exactly the six severities of ordinal at most the threshold, in the
    order Panic, Fatal, Error, Warn, Info, Debug; for Warn they are
    Panic, Fatal, Error, Warn and for Debug all six; every successful
    construction stores this list in the hook, and [Levels] returns it. *)
Theorem C1_enabled_levels (level : logrus_Level) :
  enabledLevels level = filter (fun l => (l <= level)%N) rangedLevels
  /\ (forall l : logrus_Level,
        l ∈ enabledLevels level <-> l ∈ rangedLevels /\ (l <= level)%N)
  /\ enabledLevels level `sublist_of` rangedLevels
  /\ enabledLevels logrus_WarnLevel
     = [logrus_PanicLevel; logrus_FatalLevel; logrus_ErrorLevel; logrus_WarnLevel]
  /\ enabledLevels logrus_DebugLevel
     = [logrus_PanicLevel; logrus_FatalLevel; logrus_ErrorLevel;
        logrus_WarnLevel; logrus_InfoLevel; logrus_DebugLevel]
  /\ (forall (cl : Client Backend) hook_host (indexFunc : IndexNameFunc Env) fire
             (w w' : world) hook err,
        newHookFuncAndFireFunc cl hook_host level indexFunc fire w
        = Some ((Some hook, err), w') ->
        Levels hook w' = Some (enabledLevels level, w')).
Proof.
  split; [apply enabledLevels_filter|].
  split.
  { intros l. rewrite enabledLevels_filter, list_elem_of_filter. tauto. }
  split.
  { rewrite enabledLevels_filter. apply sublist_filter. }
  split; [reflexivity|]. split; [reflexivity|].
  intros cl hook_host indexFunc fire w w' hook err Hrun.
  apply newHook_outcome in Hrun as [(e & [=] & _)|([= -> ->] & _ & Hhooks)].
  go_run. rewrite Hhooks.
  rewrite lookup_app_r, Nat.sub_diag by lia. reflexivity.
Qed.


(** *** Running the dispatch path *)

Lemma normaliseError_run (e : logrus_Entry GoTime) (w : world) :
  normaliseError e w
  = Some (tt, mkWorld (env w) (backend w) (ctxs w) (entries w)
                      (normalisedMaps (Entry_Data e) (maps w)) (hooks w)
                      (goroutines w) (trace w)).
Proof.
  go_run. unfold normalisedMaps.
  destruct w as [x b cs es ms hs gs t]; cbn [env backend ctxs entries maps hooks goroutines trace].
  destruct (Entry_Data e) as [l|]; [|done]. cbn.
  destruct (ms !! l) as [m|] eqn:Hm; cbn; [|done].
  unfold normalisedFields.
  destruct (m !! logrus_ErrorKey) as [[| | | |err]|] eqn:Hk;
    go_run; try by rewrite insert_id.
  do 3 f_equal. apply map_eq. intros l'.
  rewrite lookup_alter, lookup_insert.
  case_decide; subst; by rewrite ?Hm.
Qed.


Lemma syncFireFunc_run (entry hook : loc) (indexName : string) (w : world)
    (e : logrus_Entry GoTime) (h : hook_t) name env1 :
  entries w !! entry = Some e ->
  hooks w !! hook = Some h ->
  index h (env w) = (name, env1) ->
  let ms := normalisedMaps (Entry_Data e) (maps w) in
  let body := serialise (messageCreator h e (Entry_Data e ≫= (fun l => ms !! l)) (host h))
                        ms in
  let done := ctx_done (ctx h) (ctxs w) in
  let r := Index_Do (client h) name "log" body done (backend w) in
  syncFireFunc entry hook indexName w
  = Some (fst r,
          mkWorld env1 (snd r) (ctxs w) (entries w) ms (hooks w) (goroutines w)
                  (trace w ++ [EvResolve name; EvIndex name "log" body done (fst r)])).
Proof.
  intros He Hh Hname ms body done r.
  unfold syncFireFunc. cbv [bind deref_entry]. rewrite He, normaliseError_run.
  go_run. rewrite Hh. go_run. rewrite Hname. go_run.
  subst r done body. unfold ctx_done. fold ms.
  destruct (Index_Do _ _ _ _ _ _) as [err b1]; cbn.
  by rewrite <- app_assoc.
Qed.

(** The asynchronous branch: nothing but the resolver runs in the caller. *)
Lemma asyncFireFunc_run (entry hook : loc) (indexName : string) (w : world)
    (h : hook_t) name env1 :
  hooks w !! hook = Some h ->
  index h (env w) = (name, env1) ->
  asyncFireFunc entry hook indexName w
  = Some (None,
          mkWorld env1 (backend w) (ctxs w) (entries w) (maps w) (hooks w)
                  (goroutines w ++ [mkGoroutine entry hook name])
                  (trace w ++ [EvResolve name])).
Proof. intros Hh Hname. go_run. rewrite Hh. go_run. rewrite Hname. by go_run. Qed.

(** [Fire] resolves the index once itself, then runs the hook's branch. *)
Lemma Fire_run (hook entry : loc) (w : world) (h : hook_t) name env1 :
  hooks w !! hook = Some h ->
  index h (env w) = (name, env1) ->
  Fire hook entry w
  = (match fireFunc h with
     | SyncFire => syncFireFunc entry hook name
     | AsyncFire => asyncFireFunc entry hook name
     end)
      (mkWorld env1 (backend w) (ctxs w) (entries w) (maps w) (hooks w)
               (goroutines w) (trace w ++ [EvResolve name])).
Proof.
  intros Hh Hname. unfold Fire. cbv [bind deref_hook call_IndexNameFunc].
  rewrite Hh. cbv beta iota. by rewrite Hname.
Qed.


(** A synchronous [Fire], start to end. *)
Lemma Fire_sync_run (hook entry : loc) (w : world)
    (h : hook_t) (e : logrus_Entry GoTime) name1 env1 name2 env2 :
  hooks w !! hook = Some h ->
  fireFunc h = SyncFire ->
  entries w !! entry = Some e ->
  index h (env w) = (name1, env1) ->
  index h env1 = (name2, env2) ->
  let ms := normalisedMaps (Entry_Data e) (maps w) in
  let body := serialise (messageCreator h e (Entry_Data e ≫= (fun l => ms !! l)) (host h))
                        ms in
  let done := ctx_done (ctx h) (ctxs w) in
  let r := Index_Do (client h) name2 "log" body done (backend w) in
  Fire hook entry w
  = Some (fst r,
          mkWorld env2 (snd r) (ctxs w) (entries w) ms (hooks w) (goroutines w)
                  (trace w ++ [EvResolve name1; EvResolve name2;
                               EvIndex name2 "log" body done (fst r)])).
Proof.
  intros Hh Hmode He Hn1 Hn2 ms body done r.
  rewrite (Fire_run _ _ _ _ _ _ Hh Hn1), Hmode.
  erewrite syncFireFunc_run by (cbn; eauto).
  cbn [env backend ctxs entries maps hooks goroutines trace].
  by rewrite <- app_assoc.
Qed.

(** A started goroutine, run to its end. *)
Lemma run_goroutine_run (i : nat) (w : world) (g : Goroutine)
    (e : logrus_Entry GoTime) (h : hook_t) name env1 :
  goroutines w !! i = Some g ->
  entries w !! go_entry g = Some e ->
  hooks w !! go_hook g = Some h ->
  index h (env w) = (name, env1) ->
  let ms := normalisedMaps (Entry_Data e) (maps w) in
  let body := serialise (messageCreator h e (Entry_Data e ≫= (fun l => ms !! l)) (host h))
                        ms in
  let done := ctx_done (ctx h) (ctxs w) in
  let r := Index_Do (client h) name "log" body done (backend w) in
  run_goroutine i w
  = Some (tt,
          mkWorld env1 (snd r) (ctxs w) (entries w) ms (hooks w)
                  (delete i (goroutines w))
                  (trace w ++ [EvResolve name; EvIndex name "log" body done (fst r)])).
Proof.
  intros Hg He Hh Hn ms body done r.
  unfold run_goroutine. rewrite Hg. cbv [bind].
  erewrite syncFireFunc_run by (cbn; eauto). reflexivity.
Qed.


Lemma normalisedFields_other (m : gmap string value) (k : string) :
  k <> logrus_ErrorKey -> normalisedFields m !! k = m !! k.
Proof.
  intros Hk. unfold normalisedFields.
  destruct (m !! logrus_ErrorKey) as [[| | | |err]|]; try done.
  by rewrite lookup_insert_ne.
Qed.

Lemma normalisedFields_error (m : gmap string value) (err : error) :
  m !! logrus_ErrorKey = Some (VError err) ->
  normalisedFields m = <[logrus_ErrorKey := VString (Error err)]> m.
Proof. intros Hk. unfold normalisedFields. by rewrite Hk. Qed.

Lemma normalisedFields_no_error (m : gmap string value) :
  (forall err, m !! logrus_ErrorKey <> Some (VError err)) -> normalisedFields m = m.
Proof.
  intros Hk. unfold normalisedFields.
  destruct (m !! logrus_ErrorKey) as [[| | | |err]|] eqn:E; try done.
  by destruct (Hk err).
Qed.

Lemma normalisedMaps_footprint (e : logrus_Entry GoTime) (w w' : world) :
  entries w' = entries w ->
  hooks w' = hooks w ->
  maps w' = normalisedMaps (Entry_Data e) (maps w) ->
  only_error_key_changed e w w'.
Proof.
  intros He Hh Hm. unfold only_error_key_changed.
  rewrite He, Hh, Hm. do 2 (split; [done|]). unfold normalisedMaps. split.
  - intros l' Hl'. destruct (Entry_Data e) as [l|]; [|done].
    destruct (maps w !! l); [|done].
    rewrite lookup_insert_ne; [done | congruence].
  - intros l m -> Hl. rewrite Hl. exists (normalisedFields m).
    split; [apply lookup_insert_eq|].
    split; [apply normalisedFields_other|].
    split; [|apply normalisedFields_no_error].
    intros err Herr. rewrite (normalisedFields_error _ _ Herr).
    apply lookup_insert_eq.
Qed.

(** *** C2 *)

(** C2. A synchronous [Fire] on any record sends one write request and
    returns to its caller exactly what the backend answered to that
    request: the backend's error, unchanged, when the write failed, and nil
    when it succeeded. *)
Theorem C2_sync_fire_returns_write_error (hook entry : loc) (w : world)
    (h : hook_t) (e : logrus_Entry GoTime) :
  hooks w !! hook = Some h ->
  fireFunc h = SyncFire ->
  entries w !! entry = Some e ->
  exists (name : string) (body : wire) (done : bool) (w' : world),
    let answer := Index_Do (client h) name "log" body done (backend w) in
    Fire hook entry w = Some (fst answer, w')
    /\ backend w' = snd answer
    /\ trace w' = trace w ++ [EvResolve (fst (index h (env w))); EvResolve name;
                              EvIndex name "log" body done (fst answer)]
    /\ (forall err, fst answer = Some err -> Fire hook entry w = Some (Some err, w'))
    /\ (fst answer = None -> Fire hook entry w = Some (None, w')).
Proof.
  intros Hh Hmode He.
  destruct (index h (env w)) as [name1 env1] eqn:Hn1.
  destruct (index h env1) as [name2 env2] eqn:Hn2.
  pose proof (Fire_sync_run _ _ _ _ _ _ _ _ _ Hh Hmode He Hn1 Hn2) as Hrun.
  cbv zeta in Hrun.
  eexists name2, _, _, _. cbv zeta.
  split; [exact Hrun|]. split; [reflexivity|]. split; [reflexivity|].
  split.
  - intros err Herr. by rewrite Hrun, Herr.
  - intros Hnil. by rewrite Hrun, Hnil.
Qed.


(** *** C3 *)

(** C3. An asynchronous [Fire] on any record returns nil whatever backend
    the hook talks to: the call sends no request itself, it only starts a
    goroutine.  When that goroutine runs, the answer of its write request,
    error or not, is returned to nobody: the run yields no value and leaves
    hooks, contexts and the list of waiting goroutines as they were. *)
Theorem C3_async_fire_returns_nil (hook entry : loc) (w : world) (h : hook_t) :
  hooks w !! hook = Some h ->
  fireFunc h = AsyncFire ->
  exists (name : string) (w' : world),
    Fire hook entry w = Some (None, w')
    /\ backend w' = backend w
    /\ write_targets (trace w') = write_targets (trace w)
    /\ goroutines w' = goroutines w ++ [mkGoroutine entry hook name]
    /\ (forall e : logrus_Entry GoTime,
          entries w !! entry = Some e ->
          exists (name' : string) (body : wire) (done : bool) (w'' : world),
            let answer := Index_Do (client h) name' "log" body done (backend w) in
            run_goroutine (length (goroutines w)) w' = Some (tt, w'')
            /\ trace w'' = trace w' ++ [EvResolve name';
                                        EvIndex name' "log" body done (fst answer)]
            /\ hooks w'' = hooks w
            /\ ctxs w'' = ctxs w
            /\ goroutines w'' = goroutines w).
Proof.
  intros Hh Hmode.
  destruct (index h (env w)) as [name1 env1] eqn:Hn1.
  destruct (index h env1) as [name2 env2] eqn:Hn2.
  destruct (index h env2) as [name3 env3] eqn:Hn3.
  eexists name2, _.
  rewrite (Fire_run _ _ _ _ _ _ Hh Hn1), Hmode.
  erewrite asyncFireFunc_run by (cbn; eauto).
  cbn [env backend ctxs entries maps hooks goroutines trace].
  split; [reflexivity|]. split; [reflexivity|].
  split.
  { unfold write_targets. cbn [trace]. rewrite !omap_app. cbn. by rewrite !app_nil_r. }
  split; [reflexivity|].
  intros e He. eexists name3, _, _, _. cbv zeta.
  erewrite run_goroutine_run; cycle 1.
  - cbn. by rewrite lookup_app_r, Nat.sub_diag by lia.
  - exact He.
  - exact Hh.
  - exact Hn3.
  - cbn [env backend ctxs entries maps hooks goroutines trace].
    split; [reflexivity|]. split; [reflexivity|].
    split; [reflexivity|]. split; [reflexivity|].
    cbn [goroutines]. by rewrite delete_middle, app_nil_r.
Qed.


(** *** C4 *)

(** C4. When the record's ["error"] field holds an error value with text
    [Error err], the dispatch path of a hook with the default composer
    writes a document whose data has, under ["error"], the string
    [Error err] and not the error value; the rest of the data is the
    record's.  This holds for [syncFireFunc] as both modes run it, and for
    a synchronous [Fire]. *)
Theorem C4_error_field_written_as_text (hook entry : loc) (indexName : string)
    (w : world) (h : hook_t) (e : logrus_Entry GoTime) (l : loc)
    (m : gmap string value) (err : error) :
  hooks w !! hook = Some h ->
  messageCreator h = defaultMessageCreator ->
  entries w !! entry = Some e ->
  Entry_Data e = Some l ->
  maps w !! l = Some m ->
  m !! logrus_ErrorKey = Some (VError err) ->
  let data := <[logrus_ErrorKey := VString (Error err)]> m in
  data !! logrus_ErrorKey = Some (VString (Error err))
  /\ data !! logrus_ErrorKey <> Some (VError err)
  /\ (exists name done res w',
        syncFireFunc entry hook indexName w = Some (res, w')
        /\ last (trace w')
           = Some (EvIndex name "log" (default_wire h e (Some data)) done res))
  /\ (fireFunc h = SyncFire ->
      exists name done res w',
        Fire hook entry w = Some (res, w')
        /\ last (trace w')
           = Some (EvIndex name "log" (default_wire h e (Some data)) done res)).
Proof.
  intros Hh Hmc He Hd Hl Hk data.
  assert (Hms : normalisedMaps (Entry_Data e) (maps w) !! l = Some data).
  { unfold normalisedMaps. rewrite Hd, Hl, (normalisedFields_error _ _ Hk).
    apply lookup_insert_eq. }
  assert (Hbody :
    serialise (messageCreator h e
                 (Entry_Data e ≫= (fun l => normalisedMaps (Entry_Data e) (maps w) !! l))
                 (host h))
              (normalisedMaps (Entry_Data e) (maps w))
    = default_wire h e (Some data)).
  { rewrite Hmc. unfold defaultMessageCreator, serialise, default_wire.
    cbn [Host Timestamp Message Data Level]. rewrite Hd in Hms |- *.
    cbn [mbind option_bind]. by rewrite Hms. }
  split; [apply lookup_insert_eq|].
  split; [subst data; rewrite lookup_insert_eq; congruence|].
  destruct (index h (env w)) as [name1 env1] eqn:Hn1.
  destruct (index h env1) as [name2 env2] eqn:Hn2.
  split.
  - eexists name1, _, _, _.
    erewrite syncFireFunc_run by eauto. split; [reflexivity|].
    cbn [trace]. rewrite Hbody.
    by rewrite last_app_cons.
  - intros Hmode. eexists name2, _, _, _.
    erewrite Fire_sync_run by eauto. split; [reflexivity|].
    cbn [trace]. rewrite Hbody.
    by rewrite last_app_cons.
Qed.


(** *** C10 *)

(** C10. The dispatch path updates the caller's record in place and only
    at the ["error"] entry of its map: an error value there is replaced by
    its text, any other value (nil included) or no value leaves the map as
    it was; every other entry of the map, every other map, and the record
    itself (severity, time, message, map reference) are as before.  This
    holds for [syncFireFunc] and for a synchronous [Fire]. *)
Theorem C10_only_error_entry_mutated (hook entry : loc) (indexName : string)
    (w : world) (h : hook_t) (e : logrus_Entry GoTime) :
  hooks w !! hook = Some h ->
  entries w !! entry = Some e ->
  (exists res w',
     syncFireFunc entry hook indexName w = Some (res, w')
     /\ entries w' !! entry = Some e
     /\ only_error_key_changed e w w')
  /\ (fireFunc h = SyncFire ->
      exists res w',
        Fire hook entry w = Some (res, w')
        /\ entries w' !! entry = Some e
        /\ only_error_key_changed e w w').
Proof.
  intros Hh He.
  destruct (index h (env w)) as [name1 env1] eqn:Hn1.
  destruct (index h env1) as [name2 env2] eqn:Hn2.
  split.
  - eexists _, _. erewrite syncFireFunc_run by eauto.
    split; [reflexivity|]. split; [exact He|].
    by apply normalisedMaps_footprint.
  - intros Hmode. eexists _, _. erewrite Fire_sync_run by eauto.
    split; [reflexivity|]. split; [exact He|].
    by apply normalisedMaps_footprint.
Qed.

(** *** C9 *)

(** C9. For every record the default composer builds a document whose host
    is the hook's host label, whose timestamp is the record's time taken
    to UTC and formatted with the RFC3339 layout with nanoseconds, whose
    message is the record's message, whose data is the record's field map,
    and whose level is the upper-cased name of the record's severity; when
    the severity is Info, named ["info"] by logrus, the level is ["INFO"]. *)
Theorem C9_default_document (h : hook_t) (e : logrus_Entry GoTime)
    (fields : option (gmap string value)) :
  exists d : Document,
    defaultMessageCreator e fields (host h) = MsgDocument d
    /\ Host d = host h
    /\ Timestamp d = time_Format (time_UTC (Entry_Time e))
                                 "2006-01-02T15:04:05.999999999Z07:00"
    /\ Message d = Entry_Message e
    /\ Data d = Entry_Data e
    /\ (forall ms : gmap loc (gmap string value),
          serialise (MsgDocument d) ms
          = default_wire h e (Entry_Data e ≫= (fun l => ms !! l)))
    /\ Level d = strings_ToUpper (Level_String (Entry_Level e))
    /\ (Entry_Level e = logrus_InfoLevel ->
        Level_String logrus_InfoLevel = "info" ->
        strings_ToUpper "info" = "INFO" ->
        Level d = "INFO").
Proof.
  eexists. split; [reflexivity|]. cbn [Host Timestamp Message Data Level].
  repeat (split; [reflexivity|]).
  intros -> -> ->. reflexivity.
Qed.


(** *** C6 *)

(** C6. When the existence query answers "absent" without error and the
    create request answers without error but unacknowledged, construction
    returns no hook and the sentinel [ErrCannotCreateIndex], whose text is
    "Cannot create index" and which is none of the errors a backend
    request produced; no hook is stored either. *)
Theorem C6_unacknowledged_create (cl : Client Backend) (hook_host : string)
    (level : logrus_Level) (indexFunc : IndexNameFunc Env) (fire : FireMode)
    (w : world) name env1 b1 name' env2 createIndex b2 :
  indexFunc (env w) = (name, env1) ->
  IndexExists_Do cl name false (backend w) = ((false, None), b1) ->
  indexFunc env1 = (name', env2) ->
  CreateIndex_Do cl name' false b1 = ((Some createIndex, None), b2) ->
  Acknowledged createIndex = false ->
  exists w',
    newHookFuncAndFireFunc cl hook_host level indexFunc fire w
    = Some ((None, Some ErrCannotCreateIndex), w')
    /\ hooks w' = hooks w
    /\ Error ErrCannotCreateIndex = "Cannot create index"
    /\ (forall id msg, ErrCannotCreateIndex <> ErrOther id msg)
    /\ snd (fst (IndexExists_Do cl name false (backend w))) = None
    /\ snd (fst (CreateIndex_Do cl name' false b1)) = None.
Proof.
  intros Hname Hex Hname' Hcr Hack.
  rewrite (newHook_create_answered _ _ _ _ _ _ _ _ _ _ _ _ _ Hname Hex Hname' Hcr).
  cbv zeta. rewrite Hack, Hex, Hcr. eexists. split; [reflexivity|].
  cbn. repeat split; congruence.
Qed.

(** *** C7 *)

(** C7. When the existence query returns an error, or the index is absent
    and the create request returns an error, construction returns no hook
    and that very error value; and whenever construction returns no hook,
    for whichever reason, it returns an error, stores no hook, and the
    context it allocated is cancelled on return. *)
Theorem C7_construction_failure (cl : Client Backend) (hook_host : string)
    (level : logrus_Level) (indexFunc : IndexNameFunc Env) (fire : FireMode)
    (w : world) :
  (forall name env1 ex err b1,
      indexFunc (env w) = (name, env1) ->
      IndexExists_Do cl name false (backend w) = ((ex, Some err), b1) ->
      exists w',
        newHookFuncAndFireFunc cl hook_host level indexFunc fire w
        = Some ((None, Some err), w')
        /\ ctxs w' !! length (ctxs w) = Some true)
  /\ (forall name env1 b1 name' env2 res err b2,
        indexFunc (env w) = (name, env1) ->
        IndexExists_Do cl name false (backend w) = ((false, None), b1) ->
        indexFunc env1 = (name', env2) ->
        CreateIndex_Do cl name' false b1 = ((res, Some err), b2) ->
        exists w',
          newHookFuncAndFireFunc cl hook_host level indexFunc fire w
          = Some ((None, Some err), w')
          /\ ctxs w' !! length (ctxs w) = Some true)
  /\ (forall err w',
        newHookFuncAndFireFunc cl hook_host level indexFunc fire w
        = Some ((None, err), w') ->
        is_Some err
        /\ hooks w' = hooks w
        /\ length (ctxs w') = S (length (ctxs w))
        /\ ctxs w' !! length (ctxs w) = Some true).
Proof.
  split; [|split].
  - intros name env1 ex err b1 Hname Hex.
    rewrite (newHook_exists_error _ _ _ _ _ _ _ _ _ _ _ Hname Hex).
    eexists. split; [reflexivity|]. apply fresh_ctx_cancelled.
  - intros name env1 b1 name' env2 res err b2 Hname Hex Hname' Hcr.
    rewrite (newHook_create_error _ _ _ _ _ _ _ _ _ _ _ _ _ _ Hname Hex Hname' Hcr).
    eexists. split; [reflexivity|]. apply fresh_ctx_cancelled.
  - intros err w' Hrun.
    apply newHook_outcome in Hrun as [(e & [= ->] & Hc & Hh)|([=] & _)].
    rewrite Hc, Hh. split; [by eexists|]. split; [done|].
    split; [|apply fresh_ctx_cancelled].
    rewrite length_insert, length_app. simpl. lia.
Qed.

(** *** C8 *)

(** C8. When the existence query answers "present" without error,
    construction sends no create request: the only calls are one call of
    the resolver and the existence query, the backend is left as that query
    left it, and a hook is returned, without error, stored with the
    arguments it was built from and a live context. *)
Theorem C8_present_index_no_create (cl : Client Backend) (hook_host : string)
    (level : logrus_Level) (indexFunc : IndexNameFunc Env) (fire : FireMode)
    (w : world) name env1 b1 :
  indexFunc (env w) = (name, env1) ->
  IndexExists_Do cl name false (backend w) = ((true, None), b1) ->
  exists hook w',
    newHookFuncAndFireFunc cl hook_host level indexFunc fire w
    = Some ((Some hook, None), w')
    /\ trace w' = trace w ++ [EvResolve name; EvIndexExists name false]
    /\ create_requests (trace w') = create_requests (trace w)
    /\ backend w' = b1
    /\ hooks w' !! hook
       = Some (built_hook cl hook_host level indexFunc fire (length (ctxs w)))
    /\ ctxs w' !! length (ctxs w) = Some false.
Proof.
  intros Hname Hex.
  rewrite (newHook_present _ _ _ _ _ _ _ _ _ Hname Hex).
  eexists _, _. split; [reflexivity|].
  cbn [env backend ctxs entries maps hooks goroutines trace].
  split; [reflexivity|]. split.
  { unfold create_requests. rewrite omap_app. cbn. by rewrite app_nil_r. }
  split; [reflexivity|]. split.
  - by rewrite lookup_app_r, Nat.sub_diag by lia.
  - by rewrite lookup_app_r, Nat.sub_diag by lia.
Qed.


(** *** C5 *)

(** C5, as the code has it. The resolver's result is never stored: every
    [Fire], in either mode, starts by calling the resolver on the current
    environment.  A synchronous [Fire] calls it a second time for the write,
    and that write targets the name this second call returned; so with a
    resolver that reads its environment, two synchronous [Fire] calls
    between which the environment changes write to the name of the first
    environment and then to the name of the second.  An asynchronous [Fire]
    writes nothing itself; its goroutine calls the resolver again when it
    runs and writes to the name returned then. *)
Theorem C5_resolver_called_per_fire (hook entry : loc) (w : world)
    (h : hook_t) (e : logrus_Entry GoTime) :
  hooks w !! hook = Some h ->
  entries w !! entry = Some e ->
  let name1 := fst (index h (env w)) in
  let name2 := fst (index h (snd (index h (env w)))) in
  (fireFunc h = SyncFire ->
   exists res body done w1,
     Fire hook entry w = Some (res, w1)
     /\ trace w1 = trace w ++ [EvResolve name1; EvResolve name2;
                               EvIndex name2 "log" body done res]
     /\ write_targets (trace w1) = write_targets (trace w) ++ [name2])
  /\ (fireFunc h = SyncFire ->
      forall (f : Env -> string) (x2 : Env),
        (forall x, index h x = (f x, x)) ->
        exists res1 res2 w2,
          (res1 <- Fire hook entry ;; set_env x2 ;;
           res2 <- Fire hook entry ;; ret (res1, res2)) w = Some ((res1, res2), w2)
          /\ write_targets (trace w2) = write_targets (trace w) ++ [f (env w); f x2])
  /\ (fireFunc h = AsyncFire ->
      exists w1,
        Fire hook entry w = Some (None, w1)
        /\ trace w1 = trace w ++ [EvResolve name1; EvResolve name2]
        /\ forall x3 : Env,
             exists w2 w3,
               set_env x3 w1 = Some (tt, w2)
               /\ run_goroutine (length (goroutines w)) w2 = Some (tt, w3)
               /\ write_targets (trace w3)
                  = write_targets (trace w) ++ [fst (index h x3)]).
Proof.
  intros Hh He name1 name2. subst name1 name2.
  split; [|split].
  - intros Hmode.
    destruct (index h (env w)) as [n1 env1] eqn:Hn1.
    destruct (index h env1) as [n2 env2] eqn:Hn2.
    eexists _, _, _, _. erewrite Fire_sync_run by eauto.
    split; [reflexivity|]. cbn [fst snd trace]. rewrite Hn2.
    split; [reflexivity|].
    unfold write_targets. rewrite omap_app. reflexivity.
  - intros Hmode f x2 Hf. cbv [bind set_env ret].
    erewrite Fire_sync_run by eauto.
    cbn [env backend ctxs entries maps hooks goroutines trace].
    erewrite Fire_sync_run by (cbn; eauto).
    cbn [env backend ctxs entries maps hooks goroutines trace].
    eexists _, _, _. split; [reflexivity|].
    unfold write_targets. cbn [trace]. rewrite !omap_app. cbn.
    by rewrite <- app_assoc.
  - intros Hmode.
    destruct (index h (env w)) as [n1 env1] eqn:Hn1.
    destruct (index h env1) as [n2 env2] eqn:Hn2.
    eexists. rewrite (Fire_run _ _ _ _ _ _ Hh Hn1), Hmode.
    erewrite asyncFireFunc_run by (cbn; eauto).
    cbn [env backend ctxs entries maps hooks goroutines trace fst snd].
    rewrite Hn2. split; [reflexivity|]. split; [by rewrite <- app_assoc|].
    intros x3. destruct (index h x3) as [n3 env3] eqn:Hn3.
    eexists _, _. split; [reflexivity|].
    erewrite run_goroutine_run; cycle 1.
    + cbn. by rewrite lookup_app_r, Nat.sub_diag by lia.
    + exact He.
    + exact Hh.
    + exact Hn3.
    + split; [reflexivity|].
      unfold write_targets. cbn [trace fst]. rewrite !omap_app. cbn.
      by rewrite !app_nil_r.
Qed.


End Properties.

(** ** The theorems at concrete inputs *)

Example example_construction :
  fst <$> @NewElasticHook string string unit example_lib
            (stub_client (true, None) (None, None) None) "web-1" logrus_WarnLevel "logs"
            example_world
  = Some (Some 0%nat, None).
Proof. reflexivity. Qed.

Example example_sync_fire :
  fst <$> @Fire string string unit (0%nat) (3%nat) (example_ready SyncFire (Some refused))
  = Some (Some refused).
Proof. vm_compute. reflexivity. Qed.

(** Construction with threshold Warn over a backend that has the index. *)
Lemma C1_enabled_levels_witness :
  exists w',
    @NewElasticHook string string unit example_lib
       (stub_client (true, None) (None, None) None) "web-1" logrus_WarnLevel "logs"
       example_world
    = Some ((Some 0%nat, None), w')
    /\ Levels 0%nat w'
       = Some ([logrus_PanicLevel; logrus_FatalLevel; logrus_ErrorLevel;
                logrus_WarnLevel], w').
Proof.
  pose proof (newHook_present (lib := example_lib)
                (stub_client (true, None) (None, None) None) "web-1"
                logrus_WarnLevel (fun e => ("logs", e)) SyncFire example_world
                "logs" "logs-1" tt eq_refl eq_refl) as Hrun.
  eexists. split; [exact Hrun|].
  exact (proj2 (proj2 (proj2 (proj2 (proj2 (C1_enabled_levels (lib := example_lib)
           logrus_WarnLevel)))))
          _ _ _ _ _ _ _ _ Hrun).
Defined.

(** A synchronous hook over a backend refusing every write. *)
Lemma C2_sync_fire_witness :
  fst <$> Fire 0%nat 3%nat (example_ready SyncFire (Some refused))
  = Some (Some refused).
Proof.
  destruct (C2_sync_fire_returns_write_error 0%nat 3%nat
              (example_ready SyncFire (Some refused))
              (example_hook SyncFire (Some refused)) example_entry
              eq_refl eq_refl eq_refl)
    as (name & body & done & w' & Hfire & _).
  rewrite Hfire. reflexivity.
Defined.

(** An asynchronous hook over a backend refusing every write: [Fire]
    returns nil, and the refusal is the answer to the goroutine's write. *)
Lemma C3_async_fire_witness :
  exists name body done w' w'',
    Fire 0%nat 3%nat (example_ready AsyncFire (Some refused)) = Some (None, w')
    /\ run_goroutine 0 w' = Some (tt, w'')
    /\ last (trace w'') = Some (EvIndex name "log" body done (Some refused)).
Proof.
  destruct (C3_async_fire_returns_nil 0%nat 3%nat
              (example_ready AsyncFire (Some refused))
              (example_hook AsyncFire (Some refused)) eq_refl eq_refl)
    as (name & w' & Hfire & _ & _ & _ & Hgo).
  destruct (Hgo example_entry eq_refl)
    as (name' & body & done & w'' & Hrun & Htrace & _).
  exists name', body, done, w', w''.
  split; [exact Hfire|]. split; [exact Hrun|].
  rewrite Htrace, last_app_cons. reflexivity.
Defined.

(** The record whose ["error"] field holds the error "boom". *)
Lemma C4_error_field_witness :
  let sent := WireDocument "web-1" "2017-03-01T10:00:00.000000001Z" "disk full"
                (Some (<["error" := VString "boom"]> example_fields)) "INFO" in
  (exists name done res w',
     syncFireFunc 3%nat 0%nat "" (example_ready SyncFire None) = Some (res, w')
     /\ last (trace w') = Some (EvIndex name "log" sent done res))
  /\ (exists name done res w',
        Fire 0%nat 3%nat (example_ready SyncFire None) = Some (res, w')
        /\ last (trace w') = Some (EvIndex name "log" sent done res)).
Proof.
  pose proof (C4_error_field_written_as_text (lib := example_lib) 0%nat 3%nat ""
                (example_ready SyncFire None) (example_hook SyncFire None)
                example_entry 7%nat example_fields boom
                eq_refl eq_refl eq_refl eq_refl eq_refl eq_refl)
    as (_ & _ & Hsync & Hfire).
  split; [exact Hsync | exact (Hfire eq_refl)].
Defined.

(** Two synchronous calls, the index of the day changing in between; and
    one asynchronous call whose goroutine runs after the change. *)
Lemma C5_resolver_witness :
  (exists res1 res2 w2,
     (res1 <- Fire 0%nat 3%nat ;; set_env "logs-2" ;;
      res2 <- Fire 0%nat 3%nat ;; ret (res1, res2)) (example_ready SyncFire None)
     = Some ((res1, res2), w2)
     /\ write_targets (trace w2) = ["logs-1"; "logs-2"])
  /\ (exists w1 w2 w3,
        Fire 0%nat 3%nat (example_ready AsyncFire None) = Some (None, w1)
        /\ set_env "logs-2" w1 = Some (tt, w2)
        /\ run_goroutine 0 w2 = Some (tt, w3)
        /\ write_targets (trace w3) = ["logs-2"]).
Proof.
  split.
  - exact (proj1 (proj2
      (C5_resolver_called_per_fire 0%nat 3%nat (example_ready SyncFire None)
         (example_hook SyncFire None) example_entry eq_refl eq_refl))
      eq_refl (fun x => x) "logs-2" (fun x => eq_refl)).
  - destruct (proj2 (proj2
      (C5_resolver_called_per_fire 0%nat 3%nat (example_ready AsyncFire None)
         (example_hook AsyncFire None) example_entry eq_refl eq_refl)) eq_refl)
      as (w1 & Hfire & _ & Hgo).
    destruct (Hgo "logs-2") as (w2 & w3 & Henv & Hrun & Hwrites).
    exists w1, w2, w3. repeat (split; [assumption|]). exact Hwrites.
Defined.

(** The same two calls on an asynchronous hook, the two goroutines being
    scheduled after the second call: the resolver answered ["logs-1"] during
    the first [Fire] and ["logs-2"] during the second, and both writes go to
    ["logs-2"]; no write goes to ["logs-1"]. *)
Lemma C5_async_counterexample :
  let run :=
    (Fire 0%nat 3%nat ;; set_env "logs-2" ;; Fire 0%nat 3%nat ;;
     run_goroutine 0 ;; run_goroutine 0) (example_ready AsyncFire None) in
  let resolved (t : list Event) :=
    omap (fun ev => match ev with EvResolve name => Some name | _ => None end) t in
  (fun r => firstn 4 (resolved (trace (snd r)))) <$> run
  = Some ["logs-1"; "logs-1"; "logs-2"; "logs-2"]
  /\ (fun r => write_targets (trace (snd r))) <$> run = Some ["logs-2"; "logs-2"]
  /\ (fun r => write_targets (trace (snd r))) <$> run <> Some ["logs-1"; "logs-2"]
  /\ (fun r => goroutines (snd r)) <$> run = Some [].
Proof.
  cbv zeta. split; [vm_compute; reflexivity|]. split; [vm_compute; reflexivity|].
  split; [vm_compute; discriminate | vm_compute; reflexivity].
Defined.

(** The index is absent and the create request is not acknowledged. *)
Lemma C6_unacknowledged_witness :
  exists w',
    @NewElasticHook string string unit example_lib
       (stub_client (false, None) (Some {| Acknowledged := false |}, None) None)
       "web-1" logrus_WarnLevel "logs" example_world
    = Some ((None, Some ErrCannotCreateIndex), w')
    /\ hooks w' = [].
Proof.
  destruct (C6_unacknowledged_create (lib := example_lib)
              (stub_client (false, None) (Some {| Acknowledged := false |}, None) None)
              "web-1" logrus_WarnLevel (fun e => ("logs", e)) SyncFire example_world
              "logs" "logs-1" tt "logs" "logs-1" {| Acknowledged := false |} tt
              eq_refl eq_refl eq_refl eq_refl eq_refl)
    as (w' & Hrun & Hhooks & _).
  exists w'. split; [exact Hrun | exact Hhooks].
Defined.

(** The existence query is refused; the create request is refused; the
    create request is not acknowledged. *)
Lemma C7_construction_failure_witness :
  (exists w',
     @NewElasticHook string string unit example_lib
        (stub_client (false, Some refused) (None, None) None)
        "web-1" logrus_WarnLevel "logs" example_world
     = Some ((None, Some refused), w')
     /\ ctxs w' !! 0%nat = Some true)
  /\ (exists w',
        @NewAsyncElasticHook string string unit example_lib
           (stub_client (false, None) (None, Some boom) None)
           "web-1" logrus_WarnLevel "logs" example_world
        = Some ((None, Some boom), w')
        /\ ctxs w' !! 0%nat = Some true)
  /\ (exists w',
        @NewElasticHook string string unit example_lib
           (stub_client (false, None) (Some {| Acknowledged := false |}, None) None)
           "web-1" logrus_WarnLevel "logs" example_world
        = Some ((None, Some ErrCannotCreateIndex), w')
        /\ hooks w' = []
        /\ ctxs w' !! 0%nat = Some true).
Proof.
  split; [|split].
  - exact (proj1 (C7_construction_failure (lib := example_lib)
                    (stub_client (false, Some refused) (None, None) None)
                    "web-1" logrus_WarnLevel (fun e => ("logs", e)) SyncFire
                    example_world)
                 "logs" "logs-1" false refused tt eq_refl eq_refl).
  - exact (proj1 (proj2 (C7_construction_failure (lib := example_lib)
                    (stub_client (false, None) (None, Some boom) None)
                    "web-1" logrus_WarnLevel (fun e => ("logs", e)) AsyncFire
                    example_world))
                 "logs" "logs-1" tt "logs" "logs-1" None boom tt
                 eq_refl eq_refl eq_refl eq_refl).
  - pose proof (newHook_create_answered (lib := example_lib)
                  (stub_client (false, None) (Some {| Acknowledged := false |}, None)
                               None)
                  "web-1" logrus_WarnLevel (fun e => ("logs", e)) SyncFire
                  example_world "logs" "logs-1" tt "logs" "logs-1"
                  {| Acknowledged := false |} tt eq_refl eq_refl eq_refl eq_refl)
      as Hrun.
    cbv zeta in Hrun. cbn [Acknowledged] in Hrun.
    eexists. split; [exact Hrun|].
    destruct (proj2 (proj2 (C7_construction_failure (lib := example_lib) _ _ _ _ _ _))
                _ _ Hrun)
      as (_ & Hhooks & _ & Hctx).
    split; [exact Hhooks | exact Hctx].
Defined.

(** The index is present: no create request is sent. *)
Lemma C8_present_index_witness :
  exists hook w',
    @NewElasticHook string string unit example_lib
       (stub_client (true, None) (None, Some boom) None)
       "web-1" logrus_WarnLevel "logs" example_world
    = Some ((Some hook, None), w')
    /\ trace w' = [EvResolve "logs"; EvIndexExists "logs" false]
    /\ create_requests (trace w') = [].
Proof.
  destruct (C8_present_index_no_create (lib := example_lib)
              (stub_client (true, None) (None, Some boom) None)
              "web-1" logrus_WarnLevel (fun e => ("logs", e)) SyncFire example_world
              "logs" "logs-1" tt eq_refl eq_refl)
    as (hook & w' & Hrun & Htrace & Hcreate & _).
  exists hook, w'. split; [exact Hrun|]. split; [exact Htrace | exact Hcreate].
Defined.

(** A record of severity Info, with logrus's level names and ASCII
    upper-casing. *)
Lemma C9_default_document_witness :
  exists d : Document,
    @defaultMessageCreator string example_lib example_entry None "web-1"
    = MsgDocument d
    /\ Host d = "web-1"
    /\ Timestamp d = "2017-03-01T10:00:00.000000001Z"
    /\ Message d = "disk full"
    /\ Data d = Some 7%nat
    /\ Level d = "INFO".
Proof.
  destruct (C9_default_document (lib := example_lib) (example_hook SyncFire None)
              example_entry None)
    as (d & Hd & Hhost & Htime & Hmsg & Hdata & _ & _ & Hinfo).
  exists d. split; [exact Hd|]. split; [exact Hhost|]. split; [exact Htime|].
  split; [exact Hmsg|]. split; [exact Hdata|].
  exact (Hinfo eq_refl eq_refl eq_refl).
Defined.

(** The record with the error "boom", dispatched once. *)
Lemma C10_only_error_entry_witness :
  (exists res w',
     syncFireFunc 3%nat 0%nat "" (example_ready SyncFire None) = Some (res, w')
     /\ entries w' !! 3%nat = Some example_entry
     /\ only_error_key_changed example_entry (example_ready SyncFire None) w')
  /\ (exists res w',
        Fire 0%nat 3%nat (example_ready SyncFire None) = Some (res, w')
        /\ entries w' !! 3%nat = Some example_entry
        /\ only_error_key_changed example_entry (example_ready SyncFire None) w').
Proof.
  pose proof (C10_only_error_entry_mutated 0%nat 3%nat ""
                (example_ready SyncFire None) (example_hook SyncFire None)
                example_entry eq_refl eq_refl) as (Hsync & Hfire).
  split; [exact Hsync | exact (Hfire eq_refl)].
Defined.

(** ** Further properties of the hook *)

Section Coverage.

Context {GoTime Env Backend : Type} {lib : GoLib GoTime}.

Local Abbreviation world := (World GoTime Env Backend).
Local Abbreviation hook_t := (ElasticHook GoTime Env Backend).

(** *** The severity filter as a prefix of the six levels *)

Lemma enabledLevels_take (level : logrus_Level) :
  enabledLevels level = take (S (N.to_nat (N.min level 5))) rangedLevels.
Proof.
  destruct (decide (level < 6)%N) as [Hlt|Hge].
  - assert (level = 0 \/ level = 1 \/ level = 2 \/ level = 3 \/ level = 4
            \/ level = 5)%N as Hcases by lia.
    destruct Hcases as [->|[->|[->|[->|[->| ->]]]]]; reflexivity.
  - replace (N.min level 5) with 5%N by lia.
    rewrite enabledLevels_filter. unfold rangedLevels.
    unfold logrus_PanicLevel, logrus_FatalLevel, logrus_ErrorLevel,
      logrus_WarnLevel, logrus_InfoLevel, logrus_DebugLevel.
    repeat (rewrite filter_cons; case_decide; [|lia]). reflexivity.
Qed.

(** X1. Whatever the threshold, the enabled levels are the first
    [min(level, 5) + 1] of Panic, Fatal, Error, Warn, Info, Debug: the list
    is never empty and starts with Panic, it has no repetition, a threshold
    at or above Debug enables all six, and the threshold itself is enabled
    only when it is one of the six. *)
Theorem X1_levels_closed_form (level : logrus_Level) :
  enabledLevels level = take (S (N.to_nat (N.min level 5))) rangedLevels
  /\ head (enabledLevels level) = Some logrus_PanicLevel
  /\ length (enabledLevels level) = S (N.to_nat (N.min level 5))
  /\ NoDup (enabledLevels level)
  /\ ((logrus_DebugLevel <= level)%N -> enabledLevels level = rangedLevels)
  /\ (level ∈ enabledLevels level <-> (level <= logrus_DebugLevel)%N).
Proof.
  split; [apply enabledLevels_take|].
  split; [by rewrite enabledLevels_take|].
  split.
  { rewrite enabledLevels_take, length_take. cbn [length rangedLevels]. lia. }
  split.
  { rewrite enabledLevels_take.
    apply (sublist_NoDup _ rangedLevels); [|apply sublist_take].
    apply (bool_decide_unpack _). by vm_compute. }
  split.
  { unfold logrus_DebugLevel. intros Hge. rewrite enabledLevels_take.
    by replace (N.min level 5) with 5%N by lia. }
  rewrite enabledLevels_filter, list_elem_of_filter.
  unfold rangedLevels, logrus_PanicLevel, logrus_FatalLevel, logrus_ErrorLevel,
    logrus_WarnLevel, logrus_InfoLevel, logrus_DebugLevel.
  rewrite !elem_of_cons, elem_of_nil. lia.
Qed.

(** X2. Raising the threshold only adds levels at the end: the levels
    enabled for a threshold are a prefix of those enabled for any higher
    threshold. *)
Theorem X2_levels_monotone (level1 level2 : logrus_Level) :
  (level1 <= level2)%N ->
  enabledLevels level1 `prefix_of` enabledLevels level2.
Proof.
  intros Hle. rewrite !enabledLevels_take.
  replace (S (N.to_nat (N.min level1 5)))
    with (S (N.to_nat (N.min level1 5)) `min` S (N.to_nat (N.min level2 5)))%nat
    by lia.
  rewrite <- take_take. apply prefix_take.
Qed.

(** *** What each operation leaves alone *)

Ltac go_step :=
  cbv [Fire syncFireFunc asyncFireFunc Levels Cancel SetMessageCreator GetHost
       bind ret panic observe deref_entry deref_hook new_ElasticHook store_hook
       read_map map_assign call_IndexNameFunc context_WithCancel cancel
       backend_call client_IndexExists client_CreateIndex client_Index spawn
       set_env];
  cbn [env backend ctxs entries maps hooks goroutines trace].

Lemma syncFireFunc_nil_entry (entry hook : loc) (indexName : string) (w : world) :
  entries w !! entry = None -> syncFireFunc entry hook indexName w = None.
Proof. intros He. unfold syncFireFunc. cbv [bind deref_entry]. by rewrite He. Qed.

Lemma syncFireFunc_nil_hook (entry hook : loc) (indexName : string) (w : world) :
  hooks w !! hook = None -> syncFireFunc entry hook indexName w = None.
Proof.
  intros Hh. unfold syncFireFunc. cbv [bind deref_entry].
  destruct (entries w !! entry); [|done].
  rewrite normaliseError_run. cbv [deref_hook]. cbn [hooks]. by rewrite Hh.
Qed.

Lemma syncFireFunc_frame (entry hook : loc) (indexName : string) (w w' : world) r :
  syncFireFunc entry hook indexName w = Some (r, w') ->
  hooks w' = hooks w /\ entries w' = entries w /\ ctxs w' = ctxs w
  /\ goroutines w' = goroutines w.
Proof.
  destruct (entries w !! entry) as [e|] eqn:He;
    [|by rewrite syncFireFunc_nil_entry].
  destruct (hooks w !! hook) as [h|] eqn:Hh;
    [|by rewrite syncFireFunc_nil_hook].
  destruct (index h (env w)) as [name env1] eqn:Hn.
  erewrite syncFireFunc_run by eauto. by intros [= <- <-].
Qed.

Lemma Fire_frame (hook entry : loc) (w w' : world) r :
  Fire hook entry w = Some (r, w') ->
  hooks w' = hooks w /\ entries w' = entries w /\ ctxs w' = ctxs w.
Proof.
  destruct (hooks w !! hook) as [h|] eqn:Hh.
  - destruct (index h (env w)) as [name env1] eqn:Hn.
    rewrite (Fire_run _ _ _ _ _ _ Hh Hn).
    destruct (fireFunc h).
    + intros Hrun. apply syncFireFunc_frame in Hrun. cbn in Hrun. tauto.
    + destruct (index h env1) as [name2 env2] eqn:Hn2.
      erewrite asyncFireFunc_run by (cbn; eauto). by intros [= <- <-].
  - unfold Fire. cbv [bind deref_hook]. by rewrite Hh.
Qed.

Lemma run_goroutine_frame (i : nat) (w w' : world) :
  run_goroutine i w = Some (tt, w') ->
  hooks w' = hooks w /\ entries w' = entries w /\ ctxs w' = ctxs w.
Proof.
  unfold run_goroutine. destruct (goroutines w !! i) as [g|].
  - cbv [bind].
    destruct (syncFireFunc _ _ _ _) as [[r w1]|] eqn:Hrun; [|done].
    apply syncFireFunc_frame in Hrun. cbn in Hrun.
    cbv [ret]. intros [= <-]. tauto.
  - by intros [= <-].
Qed.

Lemma same_config_refl (h : hook_t) : same_config h h.
Proof. by repeat split. Qed.

(** One step keeps every hook in place with its configuration, and keeps
    every cancelled context cancelled. *)
Lemma run_call_keeps (c : Call) (w w' : world) :
  run_call c w = Some (tt, w') ->
  (forall hp h, hooks w !! hp = Some h ->
     exists h', hooks w' !! hp = Some h' /\ same_config h h')
  /\ (forall i, ctxs w !! i = Some true -> ctxs w' !! i = Some true).
Proof.
  assert (Hsame : forall w1 : world, hooks w1 = hooks w -> ctxs w1 = ctxs w ->
    (forall hp h, hooks w !! hp = Some h ->
       exists h', hooks w1 !! hp = Some h' /\ same_config h h')
    /\ (forall i, ctxs w !! i = Some true -> ctxs w1 !! i = Some true)).
  { intros w1 -> ->. split; [|done]. intros hp h Hh. exists h.
    split; [done | apply same_config_refl]. }
  destruct c as [cl hh level indexFunc fire|hook entry|hook|hook|hook fn|hook
                 |l k v|x|i]; cbn [run_call].
  - cbv [bind ret].
    destruct (newHookFuncAndFireFunc _ _ _ _ _ _) as [[r w1]|] eqn:Hrun; [|done].
    intros [= <-].
    apply newHook_outcome in Hrun as [(err & _ & Hc & Hh)|(_ & Hc & Hh)];
      rewrite Hc, Hh; split.
    + intros hp h Hhp. exists h. split; [done | apply same_config_refl].
    + intros i Hi. apply lookup_lt_Some in Hi as Hlt.
      rewrite list_lookup_insert_ne by lia. by rewrite lookup_app_l.
    + intros hp h Hhp. exists h. apply lookup_lt_Some in Hhp as Hlt.
      rewrite lookup_app_l by done. split; [done | apply same_config_refl].
    + intros i Hi. apply lookup_lt_Some in Hi as Hlt. by rewrite lookup_app_l.
  - cbv [bind ret].
    destruct (Fire _ _ _) as [[r w1]|] eqn:Hrun; [|done]. intros [= <-].
    apply Fire_frame in Hrun. apply Hsame; tauto.
  - go_step. destruct (hooks w !! hook); [|done]. by intros [= <-]; apply Hsame.
  - go_step. destruct (hooks w !! hook) as [h0|]; [|done]. intros [= <-].
    cbn [hooks ctxs]. split.
    + intros hp h Hhp. exists h. split; [done | apply same_config_refl].
    + intros i Hi. apply lookup_lt_Some in Hi as Hlt.
      destruct (decide (ctxCancel h0 = i)) as [->|Hne].
      * by rewrite list_lookup_insert_eq.
      * by rewrite list_lookup_insert_ne.
  - go_step. destruct (hooks w !! hook) as [h0|] eqn:Hh0; [|done]. intros [= <-].
    cbn [hooks ctxs]. split; [|done].
    intros hp h Hhp. destruct (decide (hook = hp)) as [->|Hne].
    + apply lookup_lt_Some in Hhp as Hlt. rewrite list_lookup_insert_eq by done.
      eexists. split; [reflexivity|].
      pose proof (eq_trans (eq_sym Hh0) Hhp) as [= ->]. by repeat split.
    + rewrite list_lookup_insert_ne by done. exists h.
      split; [done | apply same_config_refl].
  - go_step. destruct (hooks w !! hook); [|done]. by intros [= <-]; apply Hsame.
  - go_step. by intros [= <-]; apply Hsame.
  - go_step. by intros [= <-]; apply Hsame.
  - intros Hrun. apply run_goroutine_frame in Hrun. apply Hsame; tauto.
Qed.

Lemma run_calls_keeps (cs : list Call) (w w' : world) :
  run_calls cs w = Some (tt, w') ->
  (forall hp h, hooks w !! hp = Some h ->
     exists h', hooks w' !! hp = Some h' /\ same_config h h')
  /\ (forall i, ctxs w !! i = Some true -> ctxs w' !! i = Some true).
Proof.
  revert w. induction cs as [|c cs IH]; intros w; cbn [run_calls].
  - intros [= <-]. split; [|done]. intros hp h Hh. exists h.
    split; [done | apply same_config_refl].
  - cbv [bind]. destruct (run_call c w) as [[[] w1]|] eqn:Hc; [|done].
    intros Hcs. apply run_call_keeps in Hc as [Hh1 Hc1].
    apply IH in Hcs as [Hh2 Hc2]. split.
    + intros hp h Hhp. destruct (Hh1 _ _ Hhp) as (h1 & Hhp1 & S1).
      destruct (Hh2 _ _ Hhp1) as (h2 & Hhp2 & S2).
      exists h2. split; [done|].
      unfold same_config in *. intuition congruence.
    + intros i Hi. by apply Hc2, Hc1.
Qed.


(** *** Construction *)

(** X3. When the existence query answers "absent" and the create request
    is acknowledged, construction returns a hook and no error.  The
    resolver is called once for the query and once more for the create
    request, so the created index is the one named by the second call. *)
Theorem X3_absent_index_created (cl : Client Backend) (hook_host : string)
    (level : logrus_Level) (indexFunc : IndexNameFunc Env) (fire : FireMode)
    (w : world) name env1 b1 name' env2 createIndex b2 :
  indexFunc (env w) = (name, env1) ->
  IndexExists_Do cl name false (backend w) = ((false, None), b1) ->
  indexFunc env1 = (name', env2) ->
  CreateIndex_Do cl name' false b1 = ((Some createIndex, None), b2) ->
  Acknowledged createIndex = true ->
  exists hook w',
    newHookFuncAndFireFunc cl hook_host level indexFunc fire w
    = Some ((Some hook, None), w')
    /\ trace w' = trace w ++ [EvResolve name; EvIndexExists name false;
                              EvResolve name'; EvCreateIndex name' false]
    /\ create_requests (trace w') = create_requests (trace w) ++ [name']
    /\ backend w' = b2
    /\ env w' = env2
    /\ hooks w' !! hook
       = Some (built_hook cl hook_host level indexFunc fire (length (ctxs w)))
    /\ ctxs w' !! length (ctxs w) = Some false.
Proof.
  intros Hname Hex Hname' Hcr Hack.
  rewrite (newHook_create_answered _ _ _ _ _ _ _ _ _ _ _ _ _ Hname Hex Hname' Hcr).
  cbv zeta. rewrite Hack. eexists _, _. split; [reflexivity|].
  cbn [env backend ctxs entries maps hooks goroutines trace].
  split; [reflexivity|]. split.
  { unfold create_requests. by rewrite omap_app. }
  split; [reflexivity|]. split; [reflexivity|].
  split; by rewrite lookup_app_r, Nat.sub_diag by lia.
Qed.

(** Construction, however it ends, leaves the program's records, maps and
    goroutines alone and writes no document. *)
Lemma newHook_footprint (cl : Client Backend) (hook_host : string)
    (level : logrus_Level) (indexFunc : IndexNameFunc Env) (fire : FireMode)
    (w w' : world) r :
  newHookFuncAndFireFunc cl hook_host level indexFunc fire w = Some (r, w') ->
  entries w' = entries w /\ maps w' = maps w /\ goroutines w' = goroutines w
  /\ write_targets (trace w') = write_targets (trace w).
Proof.
  destruct (indexFunc (env w)) as [name env1] eqn:Hname.
  destruct (IndexExists_Do cl name false (backend w)) as [[ex [err|]] b1] eqn:Hex.
  { rewrite (newHook_exists_error _ _ _ _ _ _ _ _ _ _ _ Hname Hex).
    intros [= <- <-]. cbn. unfold write_targets. rewrite omap_app. cbn.
    by rewrite app_nil_r. }
  destruct ex.
  { rewrite (newHook_present _ _ _ _ _ _ _ _ _ Hname Hex).
    intros [= <- <-]. cbn. unfold write_targets. rewrite omap_app. cbn.
    by rewrite app_nil_r. }
  destruct (indexFunc env1) as [name' env2] eqn:Hname'.
  destruct (CreateIndex_Do cl name' false b1) as [[res [err|]] b2] eqn:Hcr.
  { rewrite (newHook_create_error _ _ _ _ _ _ _ _ _ _ _ _ _ _ Hname Hex Hname' Hcr).
    intros [= <- <-]. cbn. unfold write_targets. rewrite omap_app. cbn.
    by rewrite app_nil_r. }
  destruct res as [createIndex|].
  - rewrite (newHook_create_answered _ _ _ _ _ _ _ _ _ _ _ _ _ Hname Hex Hname' Hcr).
    cbv zeta. destruct (Acknowledged createIndex); intros [= <- <-]; cbn;
      unfold write_targets; rewrite omap_app; cbn; by rewrite app_nil_r.
  - by rewrite (newHook_create_nil _ _ _ _ _ _ _ _ _ _ _ _ Hname Hex Hname' Hcr).
Qed.

(** X4. Construction never disturbs what exists: whether it succeeds or
    fails, the records, their maps and the waiting goroutines are as
    before, no document is written, every hook built earlier stays at its
    address unchanged, and every context allocated earlier keeps its state;
    exactly one context is added. *)
Theorem X4_construction_footprint (cl : Client Backend) (hook_host : string)
    (level : logrus_Level) (indexFunc : IndexNameFunc Env) (fire : FireMode)
    (w w' : world) r :
  newHookFuncAndFireFunc cl hook_host level indexFunc fire w = Some (r, w') ->
  entries w' = entries w
  /\ maps w' = maps w
  /\ goroutines w' = goroutines w
  /\ write_targets (trace w') = write_targets (trace w)
  /\ (forall hp h, hooks w !! hp = Some h -> hooks w' !! hp = Some h)
  /\ (forall i b, ctxs w !! i = Some b -> ctxs w' !! i = Some b)
  /\ length (ctxs w') = S (length (ctxs w)).
Proof.
  intros Hrun.
  destruct (newHook_footprint _ _ _ _ _ _ _ _ Hrun) as (He & Hm & Hg & Ht).
  do 4 (split; [assumption|]).
  apply newHook_outcome in Hrun as [(err & _ & Hc & Hh)|(_ & Hc & Hh)];
    rewrite Hc, Hh.
  - split; [done|]. split.
    + intros i b Hi. apply lookup_lt_Some in Hi as Hlt.
      rewrite list_lookup_insert_ne by lia. by rewrite lookup_app_l.
    + rewrite length_insert, length_app. simpl. lia.
  - split.
    + intros hp h Hhp. apply lookup_lt_Some in Hhp as Hlt.
      by rewrite lookup_app_l.
    + split.
      * intros i b Hi. apply lookup_lt_Some in Hi as Hlt. by rewrite lookup_app_l.
      * rewrite length_app. simpl. lia.
Qed.

(** X5. The host label and the enabled levels of a hook never change
    after construction: whatever the program does afterwards (more
    constructions, Fire, Cancel, SetMessageCreator on any hook, writes to
    field maps, goroutines running), [GetHost] returns the label given to
    the constructor and [Levels] the levels computed from its threshold,
    and the hook keeps its dispatch mode, resolver, client and context. *)
Theorem X5_host_and_levels_fixed (cl : Client Backend) (hook_host : string)
    (level : logrus_Level) (indexFunc : IndexNameFunc Env) (fire : FireMode)
    (w w1 w2 : world) (hook : loc) err (cs : list Call) :
  newHookFuncAndFireFunc cl hook_host level indexFunc fire w
  = Some ((Some hook, err), w1) ->
  run_calls cs w1 = Some (tt, w2) ->
  GetHost hook w2 = Some (hook_host, w2)
  /\ Levels hook w2 = Some (enabledLevels level, w2)
  /\ exists h2,
       hooks w2 !! hook = Some h2
       /\ same_config (built_hook cl hook_host level indexFunc fire
                                  (length (ctxs w))) h2.
Proof.
  intros Hnew Hcs.
  apply newHook_outcome in Hnew as [(e & [=] & _)|([= -> ->] & _ & Hhooks)].
  assert (Hh1 : hooks w1 !! length (hooks w)
                = Some (built_hook cl hook_host level indexFunc fire
                                   (length (ctxs w)))).
  { rewrite Hhooks. by rewrite lookup_app_r, Nat.sub_diag by lia. }
  destruct (proj1 (run_calls_keeps _ _ _ Hcs) _ _ Hh1) as (h2 & Hh2 & Hsame).
  pose proof Hsame as (_ & Hhost & _ & Hlevels & _).
  go_step. unfold loc in *. rewrite Hh2, Hhost, Hlevels. eauto.
Qed.

(** *** Cancellation *)

(** X6. Cancelling is one-way: [Cancel] marks the hook's context as done,
    and nothing the program does afterwards makes it live again. *)
Theorem X6_cancel_is_permanent (hook : loc) (w : world) (h : hook_t) :
  hooks w !! hook = Some h ->
  (ctxCancel h < length (ctxs w))%nat ->
  exists w1,
    Cancel hook w = Some (tt, w1)
    /\ ctxs w1 !! ctxCancel h = Some true
    /\ forall (cs : list Call) (w2 : world),
         run_calls cs w1 = Some (tt, w2) -> ctxs w2 !! ctxCancel h = Some true.
Proof.
  intros Hh Hlt. eexists. go_step. rewrite Hh. split; [reflexivity|].
  cbn [ctxs].
  assert (Hc : <[ctxCancel h := true]> (ctxs w) !! ctxCancel h = Some true)
    by by apply list_lookup_insert_eq.
  split; [exact Hc|].
  intros cs w2 Hcs. by apply (proj2 (run_calls_keeps _ _ _ Hcs)).
Qed.


Lemma write_ctx_flags_app (t1 t2 : list Event) :
  write_ctx_flags (t1 ++ t2) = write_ctx_flags t1 ++ write_ctx_flags t2.
Proof. apply omap_app. Qed.

Lemma written_bodies_app (t1 t2 : list Event) :
  written_bodies (t1 ++ t2) = written_bodies t1 ++ written_bodies t2.
Proof. apply omap_app. Qed.

Lemma write_targets_app (t1 t2 : list Event) :
  write_targets (t1 ++ t2) = write_targets t1 ++ write_targets t2.
Proof. apply omap_app. Qed.

(** X7. [Fire] has no guard against a cancelled hook.  After [Cancel] a
    synchronous [Fire] still sends its write request, with the context
    already done, and returns what the backend answers to it; and a
    goroutine started by an asynchronous [Fire] before the [Cancel] sends
    its write with the context done when it runs after it. *)
Theorem X7_fire_after_cancel (hook entry : loc) (w : world) (h : hook_t)
    (e : logrus_Entry GoTime) :
  hooks w !! hook = Some h ->
  entries w !! entry = Some e ->
  ctxCancel h = ctx h ->
  (ctx h < length (ctxs w))%nat ->
  (fireFunc h = SyncFire ->
   exists name body res w',
     (Cancel hook ;; Fire hook entry) w = Some (res, w')
     /\ last (trace w') = Some (EvIndex name "log" body true res)
     /\ res = fst (Index_Do (client h) name "log" body true (backend w))
     /\ write_ctx_flags (trace w') = write_ctx_flags (trace w) ++ [true])
  /\ (fireFunc h = AsyncFire ->
      exists w',
        (Fire hook entry ;; Cancel hook ;; run_goroutine (length (goroutines w))) w
        = Some (tt, w')
        /\ write_ctx_flags (trace w') = write_ctx_flags (trace w) ++ [true]).
Proof.
  intros Hh He Hcc Hlt.
  assert (Hdone : ctx_done (ctx h) (<[ctxCancel h := true]> (ctxs w)) = true).
  { unfold ctx_done. rewrite Hcc. by rewrite list_lookup_insert_eq. }
  destruct (index h (env w)) as [name1 env1] eqn:Hn1.
  destruct (index h env1) as [name2 env2] eqn:Hn2.
  destruct (index h env2) as [name3 env3] eqn:Hn3.
  split; intros Hmode.
  - cbv [bind Cancel deref_hook cancel]. rewrite Hh.
    erewrite Fire_sync_run by (cbn; eauto).
    cbn [env backend ctxs entries maps hooks goroutines trace]. rewrite Hdone.
    eexists name2, _, _, _. split; [reflexivity|].
    cbn [trace]. split; [by rewrite last_app_cons|]. split; [reflexivity|].
    by rewrite write_ctx_flags_app.
  - cbv [bind]. rewrite (Fire_run _ _ _ _ _ _ Hh Hn1), Hmode.
    erewrite asyncFireFunc_run by (cbn; eauto).
    cbv [Cancel bind deref_hook cancel]. cbn [hooks]. rewrite Hh.
    erewrite run_goroutine_run; cycle 1.
    + cbn. by rewrite lookup_app_r, Nat.sub_diag by lia.
    + exact He.
    + exact Hh.
    + exact Hn3.
    + cbn [env backend ctxs entries maps hooks goroutines trace]. rewrite Hdone.
      eexists. split; [reflexivity|]. cbn [trace].
      rewrite !write_ctx_flags_app. cbn. by rewrite !app_nil_r.
Qed.

(** X8. [Cancel] is idempotent and silent: a second call changes nothing,
    no request is sent and no resolver is called, and the only context
    whose state can change is the hook's own, so hooks with other contexts
    are not cancelled. *)
Theorem X8_cancel_idempotent_and_local (hook : loc) (w : world) (h : hook_t) :
  hooks w !! hook = Some h ->
  exists w1,
    Cancel hook w = Some (tt, w1)
    /\ (Cancel hook ;; Cancel hook) w = Some (tt, w1)
    /\ trace w1 = trace w
    /\ backend w1 = backend w
    /\ env w1 = env w
    /\ hooks w1 = hooks w
    /\ length (ctxs w1) = length (ctxs w)
    /\ forall i, i <> ctxCancel h -> ctxs w1 !! i = ctxs w !! i.
Proof.
  intros Hh. eexists. cbv [bind Cancel deref_hook cancel]. rewrite Hh.
  split; [reflexivity|]. cbn [env backend ctxs entries maps hooks goroutines trace].
  rewrite Hh. cbn [env backend ctxs entries maps hooks goroutines trace].
  rewrite list_insert_insert_eq.
  do 5 (split; [reflexivity|]). split; [apply length_insert|].
  intros i Hi. by rewrite list_lookup_insert_ne.
Qed.

(** *** Replacing the composer *)

(** X9. After [SetMessageCreator] the next synchronous [Fire] sends the
    body built by the new composer.  The hook is read when the dispatch
    runs, so a goroutine started by an asynchronous [Fire] before the
    replacement also uses the new composer if it runs after it. *)
Theorem X9_composer_replaced (hook entry : loc) (w : world) (h : hook_t)
    (e : logrus_Entry GoTime) (fn : MessageCreatorFunc GoTime) :
  hooks w !! hook = Some h ->
  entries w !! entry = Some e ->
  let ms := normalisedMaps (Entry_Data e) (maps w) in
  let body := serialise (fn e (Entry_Data e ≫= (fun l => ms !! l)) (host h)) ms in
  (fireFunc h = SyncFire ->
   exists res w',
     (SetMessageCreator hook fn ;; Fire hook entry) w = Some (res, w')
     /\ written_bodies (trace w') = written_bodies (trace w) ++ [body])
  /\ (fireFunc h = AsyncFire ->
      exists w',
        (Fire hook entry ;; SetMessageCreator hook fn ;;
         run_goroutine (length (goroutines w))) w = Some (tt, w')
        /\ written_bodies (trace w') = written_bodies (trace w) ++ [body]).
Proof.
  intros Hh He ms body. subst ms body.
  apply lookup_lt_Some in Hh as Hlt.
  set (h' := mkElasticHook (client h) (host h) (index h) (levels h) (ctx h)
                           (ctxCancel h) (fireFunc h) fn).
  assert (Hh' : <[hook := h']> (hooks w) !! hook = Some h')
    by by apply list_lookup_insert_eq.
  destruct (index h (env w)) as [name1 env1] eqn:Hn1.
  destruct (index h env1) as [name2 env2] eqn:Hn2.
  destruct (index h env2) as [name3 env3] eqn:Hn3.
  split; intros Hmode.
  - cbv [bind SetMessageCreator deref_hook store_hook]. rewrite Hh. fold h'.
    erewrite Fire_sync_run by (cbn; eauto).
    eexists _, _. split; [reflexivity|].
    cbn [env backend ctxs entries maps hooks goroutines trace
         client host index ctx messageCreator h'].
    by rewrite written_bodies_app.
  - cbv [bind]. rewrite (Fire_run _ _ _ _ _ _ Hh Hn1), Hmode.
    erewrite asyncFireFunc_run by (cbn; eauto).
    cbv [SetMessageCreator bind deref_hook store_hook]. cbn [hooks]. rewrite Hh.
    fold h'.
    erewrite run_goroutine_run; cycle 1.
    + cbn. by rewrite lookup_app_r, Nat.sub_diag by lia.
    + exact He.
    + exact Hh'.
    + exact Hn3.
    + eexists. split; [reflexivity|].
      cbn [env backend ctxs entries maps hooks goroutines trace
           client host index ctx messageCreator h'].
      rewrite !written_bodies_app. cbn. by rewrite !app_nil_r.
Qed.


(** *** A constant index name *)

(** X10. A hook built by [NewElasticHook] from a fixed index name asks the
    backend about that name at construction and writes every record to
    that name, whatever happens to the environment in between: the
    resolver it installs is the constant one. *)
Theorem X10_constant_index_name (cl : Client Backend) (hook_host : string)
    (level : logrus_Level) (index_name : string) (w : world) b1
    (entry : loc) (e : logrus_Entry GoTime) (x : Env) :
  IndexExists_Do cl index_name false (backend w) = ((true, None), b1) ->
  entries w !! entry = Some e ->
  exists res body w',
    (r <- NewElasticHook cl hook_host level index_name ;;
     set_env x ;;
     match fst r with
     | Some hook => Fire hook entry
     | None => ret (snd r)
     end) w = Some (res, w')
    /\ trace w' = trace w ++ [EvResolve index_name; EvIndexExists index_name false;
                              EvResolve index_name; EvResolve index_name;
                              EvIndex index_name "log" body false res]
    /\ res = fst (Index_Do cl index_name "log" body false b1).
Proof.
  intros Hex He. cbv [bind NewElasticHook NewElasticHookWithFunc].
  erewrite newHook_present by (try reflexivity; exact Hex).
  cbv [set_env]. cbn [fst env backend ctxs entries maps hooks goroutines trace].
  assert (Hh : (hooks w ++ [built_hook cl hook_host level
                              (fun e0 : Env => (index_name, e0)) SyncFire
                              (length (ctxs w))]) !! length (hooks w)
               = Some (built_hook cl hook_host level
                         (fun e0 : Env => (index_name, e0)) SyncFire
                         (length (ctxs w))))
    by by rewrite lookup_app_r, Nat.sub_diag by lia.
  erewrite Fire_sync_run; [|exact Hh|reflexivity|exact He|reflexivity|reflexivity].
  cbn [env backend ctxs entries maps hooks goroutines trace
       client host index ctx messageCreator built_hook].
  unfold ctx_done. rewrite fresh_ctx_live.
  eexists _, _, _. split; [reflexivity|]. cbn [trace].
  split; [by rewrite <- app_assoc | reflexivity].
Qed.

(** *** The designated error field *)

Lemma normalisedFields_idem (m : gmap string value) :
  normalisedFields (normalisedFields m) = normalisedFields m.
Proof.
  destruct (m !! logrus_ErrorKey) as [[| | | |err]|] eqn:Hk;
    try (by rewrite !(normalisedFields_no_error m)
              by (intros err'; rewrite Hk; congruence)).
  rewrite (normalisedFields_error _ _ Hk).
  unfold normalisedFields. by rewrite lookup_insert_eq.
Qed.

Lemma normalisedFields_clean (m : gmap string value) (err : error) :
  normalisedFields m !! logrus_ErrorKey <> Some (VError err).
Proof.
  unfold normalisedFields.
  destruct (m !! logrus_ErrorKey) as [[| | | |err']|] eqn:Hk;
    rewrite ?lookup_insert_eq, ?Hk; congruence.
Qed.

Lemma normalisedMaps_idem (d : option loc) (ms : gmap loc (gmap string value)) :
  normalisedMaps d (normalisedMaps d ms) = normalisedMaps d ms.
Proof.
  unfold normalisedMaps. destruct d as [l|]; [|done].
  destruct (ms !! l) as [m|] eqn:Hm; rewrite ?Hm; [|done].
  by rewrite lookup_insert_eq, insert_insert_eq, normalisedFields_idem.
Qed.

Lemma normalisedMaps_no_error (d : option loc) (ms : gmap loc (gmap string value)) :
  (forall l m err, d = Some l -> ms !! l = Some m ->
     m !! logrus_ErrorKey <> Some (VError err)) ->
  normalisedMaps d ms = ms.
Proof.
  intros Hno. unfold normalisedMaps. destruct d as [l|]; [|done].
  destruct (ms !! l) as [m|] eqn:Hm; [|done].
  rewrite normalisedFields_no_error by eauto. by apply insert_id.
Qed.

(** X11. Dispatching a record twice is harmless: after the first
    synchronous [Fire] the record's map holds no error value under
    ["error"], and a second [Fire] on the same record changes no map. *)
Theorem X11_normalisation_idempotent (hook entry : loc) (w : world) (h : hook_t)
    (e : logrus_Entry GoTime) :
  hooks w !! hook = Some h ->
  fireFunc h = SyncFire ->
  entries w !! entry = Some e ->
  exists r1 r2 w1 w2,
    Fire hook entry w = Some (r1, w1)
    /\ Fire hook entry w1 = Some (r2, w2)
    /\ maps w2 = maps w1
    /\ (forall l m err, Entry_Data e = Some l -> maps w1 !! l = Some m ->
          m !! logrus_ErrorKey <> Some (VError err)).
Proof.
  intros Hh Hmode He.
  destruct (index h (env w)) as [name1 env1] eqn:Hn1.
  destruct (index h env1) as [name2 env2] eqn:Hn2.
  destruct (index h env2) as [name3 env3] eqn:Hn3.
  destruct (index h env3) as [name4 env4] eqn:Hn4.
  eexists _, _, _, _.
  erewrite Fire_sync_run by eauto. split; [reflexivity|].
  erewrite Fire_sync_run by (cbn; eauto). split; [reflexivity|].
  cbn [maps]. split; [apply normalisedMaps_idem|].
  intros l m err Hd. unfold normalisedMaps. rewrite Hd.
  destruct (maps w !! l) as [m0|] eqn:Hm0.
  - rewrite lookup_insert_eq. intros [= <-]. apply normalisedFields_clean.
  - by rewrite Hm0.
Qed.

(** X12. A record with nothing to normalise is only read: when its map is
    nil, has no ["error"] key, or holds there nil or any value that is not
    an error, the dispatch path changes no map, and with the default
    composer the document's data is the map as the caller left it. *)
Theorem X12_no_error_value_no_change (hook entry : loc) (indexName : string)
    (w : world) (h : hook_t) (e : logrus_Entry GoTime) :
  hooks w !! hook = Some h ->
  messageCreator h = defaultMessageCreator ->
  entries w !! entry = Some e ->
  (forall l m err, Entry_Data e = Some l -> maps w !! l = Some m ->
     m !! logrus_ErrorKey <> Some (VError err)) ->
  exists name done res w',
    syncFireFunc entry hook indexName w = Some (res, w')
    /\ maps w' = maps w
    /\ last (trace w')
       = Some (EvIndex name "log"
                 (default_wire h e (Entry_Data e ≫= (fun l => maps w !! l)))
                 done res).
Proof.
  intros Hh Hmc He Hno.
  destruct (index h (env w)) as [name1 env1] eqn:Hn1.
  eexists name1, _, _, _.
  erewrite syncFireFunc_run by eauto.
  rewrite (normalisedMaps_no_error _ _ Hno), Hmc.
  split; [reflexivity|]. split; [reflexivity|].
  cbn [trace]. by rewrite last_app_cons.
Qed.


(** *** Order of the writes *)

Lemma written_messages_app (t1 t2 : list Event) :
  written_messages (t1 ++ t2) = written_messages t1 ++ written_messages t2.
Proof. unfold written_messages. by rewrite written_bodies_app, omap_app. Qed.

(** The messages written by one dispatch with the default composer. *)
Lemma default_dispatch_message (h : hook_t) (e : logrus_Entry GoTime)
    (ms : gmap loc (gmap string value)) fields name1 name2 done res :
  messageCreator h = defaultMessageCreator ->
  written_messages
    [EvResolve name1;
     EvIndex name2 "log" (serialise (messageCreator h e fields (host h)) ms) done res]
  = [Entry_Message e].
Proof. intros ->. reflexivity. Qed.

(** X13. Synchronous mode keeps the caller's order: firing a list of
    records one after the other sends exactly one document per record, in
    the order of the calls, returns one result per record, and starts no
    goroutine. *)
Theorem X13_sync_fire_keeps_order (hook : loc) (es : list loc) (w : world)
    (h : hook_t) :
  hooks w !! hook = Some h ->
  fireFunc h = SyncFire ->
  messageCreator h = defaultMessageCreator ->
  Forall (fun entry => is_Some (entries w !! entry)) es ->
  exists rs w',
    fire_all hook es w = Some (rs, w')
    /\ length rs = length es
    /\ written_messages (trace w')
       = written_messages (trace w)
         ++ omap (fun entry => Entry_Message <$> entries w !! entry) es
    /\ goroutines w' = goroutines w.
Proof.
  intros Hh Hmode Hmc Hes. revert w Hh Hes.
  induction es as [|entry es IH]; intros w Hh Hes.
  - eexists _, _. split; [reflexivity|]. cbn. by rewrite app_nil_r.
  - apply Forall_cons in Hes as [[e He] Hes].
    destruct (index h (env w)) as [name1 env1] eqn:Hn1.
    destruct (index h env1) as [name2 env2] eqn:Hn2.
    cbn [fire_all]. cbv [bind].
    erewrite Fire_sync_run by eauto.
    match goal with |- context [fire_all hook es ?w1] =>
      destruct (IH w1) as (rs & w' & Hrun & Hlen & Hmsgs & Hgs);
        [exact Hh | exact Hes |]
    end.
    rewrite Hrun. eexists _, _. split; [reflexivity|].
    cbn [length]. split; [by rewrite Hlen|].
    cbn [entries goroutines trace] in Hmsgs, Hgs.
    split; [|exact Hgs].
    rewrite Hmsgs. cbn [omap list_omap]. unfold loc in *. rewrite He. cbn [fmap option_fmap option_map].
    rewrite (written_messages_app (trace w)).
    change [EvResolve name1; EvResolve name2;
            EvIndex name2 "log" ?b ?d ?r]
      with ([EvResolve name1] ++ [EvResolve name2; EvIndex name2 "log" b d r]).
    rewrite (written_messages_app [EvResolve name1]).
    rewrite (default_dispatch_message _ _ _ _ _ _ _ _ Hmc).
    cbn. by rewrite <- app_assoc.
Qed.


(** X14. Asynchronous mode leaves the order of the writes to the
    scheduler: after two asynchronous [Fire] calls the two documents are
    written in call order when the goroutines run in the order they were
    started, and in the opposite order when the second goroutine runs
    first. *)
Theorem X14_async_order_is_the_schedulers (hook entry1 entry2 : loc) (w : world)
    (h : hook_t) (e1 e2 : logrus_Entry GoTime) :
  hooks w !! hook = Some h ->
  fireFunc h = AsyncFire ->
  messageCreator h = defaultMessageCreator ->
  entries w !! entry1 = Some e1 ->
  entries w !! entry2 = Some e2 ->
  let n := length (goroutines w) in
  (exists w',
     (Fire hook entry1 ;; Fire hook entry2 ;;
      run_goroutine n ;; run_goroutine n) w = Some (tt, w')
     /\ written_messages (trace w')
        = written_messages (trace w) ++ [Entry_Message e1; Entry_Message e2])
  /\ (exists w',
        (Fire hook entry1 ;; Fire hook entry2 ;;
         run_goroutine (S n) ;; run_goroutine n) w = Some (tt, w')
        /\ written_messages (trace w')
           = written_messages (trace w) ++ [Entry_Message e2; Entry_Message e1]).
Proof.
  intros Hh Hmode Hmc He1 He2 n. subst n.
  destruct (index h (env w)) as [n1 x1] eqn:Hn1.
  destruct (index h x1) as [n2 x2] eqn:Hn2.
  destruct (index h x2) as [n3 x3] eqn:Hn3.
  destruct (index h x3) as [n4 x4] eqn:Hn4.
  destruct (index h x4) as [n5 x5] eqn:Hn5.
  destruct (index h x5) as [n6 x6] eqn:Hn6.
  set (g1 := mkGoroutine entry1 hook n2).
  set (g2 := mkGoroutine entry2 hook n4).
  assert (Hl0 : ((goroutines w ++ [g1]) ++ [g2]) !! length (goroutines w) = Some g1).
  { rewrite lookup_app_l by (rewrite length_app; simpl; lia).
    by rewrite lookup_app_r, Nat.sub_diag by lia. }
  assert (Hl1 : ((goroutines w ++ [g1]) ++ [g2]) !! S (length (goroutines w))
                = Some g2).
  { rewrite lookup_app_r by (rewrite length_app; simpl; lia).
    rewrite length_app. simpl.
    by replace (S (length (goroutines w)) - (length (goroutines w) + 1))%nat
      with 0%nat by lia. }
  assert (Hd0 : delete (length (goroutines w)) ((goroutines w ++ [g1]) ++ [g2])
                = goroutines w ++ [g2]).
  { rewrite <- app_assoc. apply delete_middle. }
  assert (Hd1 : delete (S (length (goroutines w))) ((goroutines w ++ [g1]) ++ [g2])
                = goroutines w ++ [g1]).
  { replace (S (length (goroutines w))) with (length (goroutines w ++ [g1]))
      by (rewrite length_app; simpl; lia).
    rewrite delete_middle. apply app_nil_r. }
  assert (Hl2 : forall g, (goroutines w ++ [g]) !! length (goroutines w) = Some g).
  { intros g. by rewrite lookup_app_r, Nat.sub_diag by lia. }
  split.
  - cbv [bind]. rewrite (Fire_run _ _ _ _ _ _ Hh Hn1), Hmode.
    erewrite asyncFireFunc_run by (cbn; eauto).
    erewrite Fire_run by (cbn; eauto). rewrite Hmode.
    erewrite asyncFireFunc_run by (cbn; eauto).
    cbn [env backend ctxs entries maps hooks goroutines trace]. fold g1 g2.
    erewrite run_goroutine_run; [|exact Hl0|exact He1|exact Hh|exact Hn5].
    cbn [env backend ctxs entries maps hooks goroutines trace]. rewrite Hd0.
    erewrite run_goroutine_run; [|apply Hl2|exact He2|exact Hh|exact Hn6].
    eexists. split; [reflexivity|].
    cbn [trace]. rewrite !written_messages_app.
    rewrite !(default_dispatch_message _ _ _ _ _ _ _ _ Hmc).
    cbn. by rewrite !app_nil_r, <- !app_assoc.
  - cbv [bind]. rewrite (Fire_run _ _ _ _ _ _ Hh Hn1), Hmode.
    erewrite asyncFireFunc_run by (cbn; eauto).
    erewrite Fire_run by (cbn; eauto). rewrite Hmode.
    erewrite asyncFireFunc_run by (cbn; eauto).
    cbn [env backend ctxs entries maps hooks goroutines trace]. fold g1 g2.
    erewrite run_goroutine_run; [|exact Hl1|exact He2|exact Hh|exact Hn5].
    cbn [env backend ctxs entries maps hooks goroutines trace]. rewrite Hd1.
    erewrite run_goroutine_run; [|apply Hl2|exact He1|exact Hh|exact Hn6].
    eexists. split; [reflexivity|].
    cbn [trace]. rewrite !written_messages_app.
    rewrite !(default_dispatch_message _ _ _ _ _ _ _ _ Hmc).
    cbn. by rewrite !app_nil_r, <- !app_assoc.
Qed.

(** *** A nil record *)

(** X15. A synchronous [Fire] on a nil record pointer panics at once.
    An asynchronous [Fire] does not touch the record: it returns nil and
    starts the goroutine, and the panic happens when the goroutine runs. *)
Theorem X15_nil_record (hook entry : loc) (w : world) (h : hook_t) :
  hooks w !! hook = Some h ->
  entries w !! entry = None ->
  (fireFunc h = SyncFire -> Fire hook entry w = None)
  /\ (fireFunc h = AsyncFire ->
      exists w',
        Fire hook entry w = Some (None, w')
        /\ length (goroutines w') = S (length (goroutines w))
        /\ run_goroutine (length (goroutines w)) w' = None).
Proof.
  intros Hh He.
  destruct (index h (env w)) as [name1 env1] eqn:Hn1.
  destruct (index h env1) as [name2 env2] eqn:Hn2.
  rewrite (Fire_run _ _ _ _ _ _ Hh Hn1).
  split; intros ->.
  - by apply syncFireFunc_nil_entry.
  - erewrite asyncFireFunc_run by (cbn; eauto).
    eexists. split; [reflexivity|].
    cbn [env backend ctxs entries maps hooks goroutines trace].
    split; [rewrite length_app; simpl; lia|].
    unfold run_goroutine. cbn [goroutines].
    rewrite lookup_app_r, Nat.sub_diag by lia. cbn [lookup list_lookup].
    cbv [bind]. cbn [go_entry go_hook go_indexName].
    by rewrite syncFireFunc_nil_entry.
Qed.

(** *** The document shares the record's map *)

(** X16. The default document holds the record's map itself, not a copy,
    and the map is read when the request is serialised.  So when the caller
    assigns into the map after an asynchronous [Fire] has returned and
    before the goroutine runs, the document written carries the assigned
    value. *)
Theorem X16_async_write_sees_later_assignment (hook entry : loc) (w : world)
    (h : hook_t) (e : logrus_Entry GoTime) (l : loc) (m : gmap string value)
    (k : string) (v : value) :
  hooks w !! hook = Some h ->
  fireFunc h = AsyncFire ->
  messageCreator h = defaultMessageCreator ->
  entries w !! entry = Some e ->
  Entry_Data e = Some l ->
  maps w !! l = Some m ->
  exists w',
    (Fire hook entry ;; map_assign l k v ;;
     run_goroutine (length (goroutines w))) w = Some (tt, w')
    /\ written_bodies (trace w')
       = written_bodies (trace w)
         ++ [default_wire h e (Some (normalisedFields (<[k := v]> m)))]
    /\ (k <> logrus_ErrorKey ->
        normalisedFields (<[k := v]> m) !! k = Some v).
Proof.
  intros Hh Hmode Hmc He Hd Hm.
  destruct (index h (env w)) as [name1 env1] eqn:Hn1.
  destruct (index h env1) as [name2 env2] eqn:Hn2.
  destruct (index h env2) as [name3 env3] eqn:Hn3.
  cbv [bind]. rewrite (Fire_run _ _ _ _ _ _ Hh Hn1), Hmode.
  erewrite asyncFireFunc_run by (cbn; eauto).
  cbv [map_assign]. cbn [env backend ctxs entries maps hooks goroutines trace].
  erewrite run_goroutine_run; cycle 1.
  - cbn. by rewrite lookup_app_r, Nat.sub_diag by lia.
  - exact He.
  - exact Hh.
  - exact Hn3.
  - eexists. split; [reflexivity|].
    cbn [env backend ctxs entries maps hooks goroutines trace].
    split.
    + rewrite !written_bodies_app. cbn [written_bodies omap list_omap].
      rewrite !app_nil_r. do 2 f_equal.
      rewrite Hmc. unfold defaultMessageCreator, serialise, default_wire.
      cbn [Host Timestamp Message Data Level]. f_equal.
      rewrite Hd. cbn [mbind option_bind]. unfold normalisedMaps.
      rewrite lookup_alter_eq, Hm. cbn [fmap option_fmap option_map].
      by rewrite lookup_insert_eq.
    + intros Hk. rewrite normalisedFields_other by done.
      apply lookup_insert_eq.
Qed.


(** *** Two hooks *)

(** X17. Every construction allocates a context of its own, so hooks do
    not share cancellation: with two hooks built one after the other,
    cancelling the first leaves the context of the second live, and a
    synchronous [Fire] on the second sends its write with a live context. *)
Theorem X17_hooks_cancel_independently (clA clB : Client Backend)
    (hostA hostB : string) (levelA levelB : logrus_Level) (nameA nameB : string)
    (w : world) b1 b2 (entry : loc) (e : logrus_Entry GoTime) :
  IndexExists_Do clA nameA false (backend w) = ((true, None), b1) ->
  IndexExists_Do clB nameB false b1 = ((true, None), b2) ->
  entries w !! entry = Some e ->
  exists res w',
    (rA <- NewElasticHook clA hostA levelA nameA ;;
     rB <- NewElasticHook clB hostB levelB nameB ;;
     match fst rA, fst rB with
     | Some hookA, Some hookB => Cancel hookA ;; Fire hookB entry
     | _, _ => ret None
     end) w = Some (res, w')
    /\ ctxs w' = ctxs w ++ [true; false]
    /\ write_targets (trace w') = write_targets (trace w) ++ [nameB]
    /\ write_ctx_flags (trace w') = write_ctx_flags (trace w) ++ [false].
Proof.
  intros HexA HexB He. cbv [bind NewElasticHook NewElasticHookWithFunc].
  erewrite newHook_present by (try reflexivity; exact HexA).
  erewrite newHook_present by (try reflexivity; exact HexB).
  cbn [fst env backend ctxs entries maps hooks goroutines trace].
  set (hA := built_hook clA hostA levelA (fun e0 : Env => (nameA, e0)) SyncFire
                        (length (ctxs w))).
  set (hB := built_hook clB hostB levelB (fun e0 : Env => (nameB, e0)) SyncFire
                        (length (ctxs w ++ [false]))).
  assert (HhA : ((hooks w ++ [hA]) ++ [hB]) !! length (hooks w) = Some hA).
  { rewrite lookup_app_l by (rewrite length_app; simpl; lia).
    by rewrite lookup_app_r, Nat.sub_diag by lia. }
  assert (HhB : ((hooks w ++ [hA]) ++ [hB]) !! length (hooks w ++ [hA]) = Some hB)
    by by rewrite lookup_app_r, Nat.sub_diag by lia.
  cbv [Cancel bind deref_hook cancel].
  cbn [env backend ctxs entries maps hooks goroutines trace].
  unfold loc in *. rewrite HhA.
  erewrite Fire_sync_run; [|exact HhB|reflexivity|exact He|reflexivity|reflexivity].
  cbn [env backend ctxs entries maps hooks goroutines trace
       client host index ctx ctxCancel messageCreator built_hook hA hB].
  assert (Hctxs : <[length (ctxs w) := true]> ((ctxs w ++ [false]) ++ [false])
                  = ctxs w ++ [true; false]).
  { rewrite <- app_assoc. rewrite insert_app_r_alt, Nat.sub_diag by lia.
    reflexivity. }
  rewrite Hctxs.
  assert (Hlive : ctx_done (length (ctxs w ++ [false])) (ctxs w ++ [true; false])
                  = false).
  { unfold ctx_done. rewrite length_app. simpl.
    rewrite lookup_app_r by lia.
    by replace (length (ctxs w) + 1 - length (ctxs w))%nat with 1%nat by lia. }
  rewrite Hlive.
  eexists _, _. split; [reflexivity|]. cbn [ctxs trace].
  split; [reflexivity|].
  split.
  - rewrite !write_targets_app. cbn. by rewrite !app_nil_r.
  - rewrite !write_ctx_flags_app. cbn. by rewrite !app_nil_r.
Qed.

(** *** What a composer is given *)

(** X18. The composer runs after the error field has been normalised:
    whichever composer the hook holds, the field contents it is called
    with are those of the record's map after the dispatch, and they never
    hold an error value under ["error"]. *)
Theorem X18_composer_sees_normalised_fields (hook entry : loc) (indexName : string)
    (w : world) (h : hook_t) (e : logrus_Entry GoTime) :
  hooks w !! hook = Some h ->
  entries w !! entry = Some e ->
  exists fields name done res w',
    syncFireFunc entry hook indexName w = Some (res, w')
    /\ last (trace w')
       = Some (EvIndex name "log"
                 (serialise (messageCreator h e fields (host h)) (maps w'))
                 done res)
    /\ fields = Entry_Data e ≫= (fun l => maps w' !! l)
    /\ (forall m err, fields = Some m ->
          m !! logrus_ErrorKey <> Some (VError err)).
Proof.
  intros Hh He.
  destruct (index h (env w)) as [name1 env1] eqn:Hn1.
  eexists _, name1, _, _, _.
  erewrite syncFireFunc_run by eauto.
  split; [reflexivity|]. cbn [maps trace].
  split; [by rewrite last_app_cons|]. split; [reflexivity|].
  intros m err. unfold normalisedMaps.
  destruct (Entry_Data e) as [l|]; [|done]. cbn [mbind option_bind].
  destruct (maps w !! l) as [m0|] eqn:Hm0.
  - rewrite lookup_insert_eq. intros [= <-]. apply normalisedFields_clean.
  - by rewrite Hm0.
Qed.


End Coverage.

(** ** The further properties at concrete inputs *)

(** A threshold above Debug. *)
Lemma X1_levels_witness : enabledLevels 7 = rangedLevels.
Proof.
  apply (proj1 (proj2 (proj2 (proj2 (proj2 (X1_levels_closed_form 7)))))).
  unfold logrus_DebugLevel. lia.
Defined.

(** Warn against Debug. *)
Lemma X2_levels_monotone_witness :
  enabledLevels logrus_WarnLevel `prefix_of` enabledLevels logrus_DebugLevel.
Proof.
  apply X2_levels_monotone. unfold logrus_WarnLevel, logrus_DebugLevel. lia.
Defined.

(** The index is absent and its creation is acknowledged. *)
Lemma X3_absent_index_witness :
  exists hook w',
    @NewElasticHook string string unit example_lib
       (stub_client (false, None) (Some {| Acknowledged := true |}, None) None)
       "web-1" logrus_WarnLevel "logs" example_world
    = Some ((Some hook, None), w')
    /\ create_requests (trace w') = ["logs"].
Proof.
  destruct (X3_absent_index_created (lib := example_lib)
              (stub_client (false, None) (Some {| Acknowledged := true |}, None) None)
              "web-1" logrus_WarnLevel (fun e => ("logs", e)) SyncFire example_world
              "logs" "logs-1" tt "logs" "logs-1" {| Acknowledged := true |} tt
              eq_refl eq_refl eq_refl eq_refl eq_refl)
    as (hook & w' & Hrun & _ & Hcreate & _).
  exists hook, w'. split; [exact Hrun | exact Hcreate].
Defined.

(** A second hook is built, and its construction fails, next to a ready
    one. *)
Lemma X4_construction_footprint_witness :
  exists w',
    @NewElasticHook string string unit example_lib
       (stub_client (false, Some refused) (None, None) None)
       "web-2" logrus_DebugLevel "logs" (example_ready SyncFire None)
    = Some ((None, Some refused), w')
    /\ hooks w' !! 0%nat = Some (example_hook SyncFire None)
    /\ ctxs w' !! 0%nat = Some false
    /\ entries w' = entries (example_ready SyncFire None).
Proof.
  pose proof (newHook_exists_error (lib := example_lib)
                (stub_client (false, Some refused) (None, None) None)
                "web-2" logrus_DebugLevel (fun e => ("logs", e)) SyncFire
                (example_ready SyncFire None) "logs" "logs-1" false refused tt
                eq_refl eq_refl) as Hrun.
  destruct (X4_construction_footprint (lib := example_lib) _ _ _ _ _ _ _ _ Hrun)
    as (Hentries & _ & _ & _ & Hhooks & Hctxs & _).
  eexists. split; [exact Hrun|].
  split; [exact (Hhooks 0%nat _ eq_refl)|].
  split; [exact (Hctxs 0%nat false eq_refl) | exact Hentries].
Defined.

(** A hook is built, then cancelled and given another composer. *)
Lemma X5_host_and_levels_witness :
  exists w1 w2,
    @NewElasticHook string string unit example_lib
       (stub_client (true, None) (None, None) None)
       "web-1" logrus_WarnLevel "logs" example_world
    = Some ((Some 0%nat, None), w1)
    /\ @run_calls string string unit example_lib
         [DoCancel 0%nat; DoSetMessageCreator 0%nat message_only] w1
       = Some (tt, w2)
    /\ GetHost 0%nat w2 = Some ("web-1", w2)
    /\ Levels 0%nat w2
       = Some ([logrus_PanicLevel; logrus_FatalLevel; logrus_ErrorLevel;
                logrus_WarnLevel], w2).
Proof.
  pose proof (newHook_present (lib := example_lib)
                (stub_client (true, None) (None, None) None) "web-1"
                logrus_WarnLevel (fun e => ("logs", e)) SyncFire example_world
                "logs" "logs-1" tt eq_refl eq_refl) as Hnew.
  eexists _, _. split; [exact Hnew|].
  match goal with |- @run_calls _ _ _ _ ?cs ?w1 = Some (tt, ?w2) /\ _ =>
    assert (Hrun : @run_calls string string unit example_lib cs w1
                   = Some (tt, mkWorld "logs-1" tt [true] (entries example_world)
                             (maps example_world)
                             [mkElasticHook
                                (stub_client (true, None) (None, None) None)
                                "web-1" (fun e => ("logs", e))
                                (enabledLevels logrus_WarnLevel) 0%nat 0%nat
                                SyncFire message_only]
                             []
                             [EvResolve "logs"; EvIndexExists "logs" false]))
      by reflexivity
  end.
  split; [exact Hrun|].
  destruct (X5_host_and_levels_fixed (lib := example_lib) _ _ _ _ _ _ _ _ _ _ _
              Hnew Hrun) as (Hhost & Hlevels & _).
  split; [exact Hhost | exact Hlevels].
Defined.

(** The ready hook is cancelled. *)
Lemma X6_cancel_permanent_witness :
  exists w1,
    Cancel 0%nat (example_ready SyncFire None) = Some (tt, w1)
    /\ ctxs w1 !! 0%nat = Some true.
Proof.
  destruct (X6_cancel_is_permanent (lib := example_lib) 0%nat
              (example_ready SyncFire None)
              (example_hook SyncFire None) eq_refl (le_n 1))
    as (w1 & Hcancel & Hdone & _).
  exists w1. split; [exact Hcancel | exact Hdone].
Defined.

(** The ready hook is cancelled, then fired. *)
Lemma X7_fire_after_cancel_witness :
  exists name body res w',
    (Cancel 0%nat ;; Fire 0%nat 3%nat) (example_ready SyncFire (Some refused))
    = Some (res, w')
    /\ last (trace w') = Some (EvIndex name "log" body true res)
    /\ res = Some refused.
Proof.
  destruct (proj1 (X7_fire_after_cancel 0%nat 3%nat
                     (example_ready SyncFire (Some refused))
                     (example_hook SyncFire (Some refused)) example_entry
                     eq_refl eq_refl eq_refl (le_n 1)) eq_refl)
    as (name & body & res & w' & Hrun & Hlast & Hres & _).
  exists name, body, res, w'. split; [exact Hrun|]. split; [exact Hlast | exact Hres].
Defined.

(** The ready hook is cancelled twice. *)
Lemma X8_cancel_idempotent_witness :
  exists w1,
    Cancel 0%nat (example_ready AsyncFire None) = Some (tt, w1)
    /\ (Cancel 0%nat ;; Cancel 0%nat) (example_ready AsyncFire None) = Some (tt, w1)
    /\ trace w1 = [].
Proof.
  destruct (X8_cancel_idempotent_and_local 0%nat (example_ready AsyncFire None)
              (example_hook AsyncFire None) eq_refl)
    as (w1 & Hone & Htwo & Htrace & _).
  exists w1. split; [exact Hone|]. split; [exact Htwo | exact Htrace].
Defined.

(** The ready hook is given the composer [message_only]. *)
Lemma X9_composer_replaced_witness :
  (exists res w',
     (SetMessageCreator 0%nat message_only ;; Fire 0%nat 3%nat)
       (example_ready SyncFire None) = Some (res, w')
     /\ written_bodies (trace w') = [WireOther "disk full"])
  /\ (exists w',
        (Fire 0%nat 3%nat ;; SetMessageCreator 0%nat message_only ;;
         run_goroutine 0) (example_ready AsyncFire None) = Some (tt, w')
        /\ written_bodies (trace w') = [WireOther "disk full"]).
Proof.
  split.
  - exact (proj1 (X9_composer_replaced 0%nat 3%nat (example_ready SyncFire None)
                    (example_hook SyncFire None) example_entry message_only
                    eq_refl eq_refl) eq_refl).
  - exact (proj2 (X9_composer_replaced 0%nat 3%nat (example_ready AsyncFire None)
                    (example_hook AsyncFire None) example_entry message_only
                    eq_refl eq_refl) eq_refl).
Defined.

(** A hook on the fixed name ["logs"], fired after the day has changed. *)
Lemma X10_constant_index_witness :
  exists res body w',
    (r <- @NewElasticHook string string unit example_lib
            (stub_client (true, None) (None, None) None)
            "web-1" logrus_WarnLevel "logs" ;;
     set_env "logs-2" ;;
     match fst r with
     | Some hook => Fire hook 3%nat
     | None => ret (snd r)
     end) example_world = Some (res, w')
    /\ trace w' = [EvResolve "logs"; EvIndexExists "logs" false;
                   EvResolve "logs"; EvResolve "logs";
                   EvIndex "logs" "log" body false res].
Proof.
  destruct (X10_constant_index_name (lib := example_lib)
              (stub_client (true, None) (None, None) None)
              "web-1" logrus_WarnLevel "logs" example_world tt 3%nat example_entry
              "logs-2" eq_refl eq_refl)
    as (res & body & w' & Hrun & Htrace & _).
  exists res, body, w'. split; [exact Hrun | exact Htrace].
Defined.

(** The record with the error "boom", fired twice. *)
Lemma X11_normalisation_witness :
  exists r1 r2 w1 w2,
    Fire 0%nat 3%nat (example_ready SyncFire None) = Some (r1, w1)
    /\ Fire 0%nat 3%nat w1 = Some (r2, w2)
    /\ maps w2 = maps w1.
Proof.
  destruct (X11_normalisation_idempotent 0%nat 3%nat (example_ready SyncFire None)
              (example_hook SyncFire None) example_entry eq_refl eq_refl eq_refl)
    as (r1 & r2 & w1 & w2 & H1 & H2 & Hmaps & _).
  exists r1, r2, w1, w2. split; [exact H1|]. split; [exact H2 | exact Hmaps].
Defined.

(** The record without a field map. *)
Lemma X12_no_error_value_witness :
  exists name done res w',
    syncFireFunc 4%nat 0%nat "" (example_pair SyncFire None) = Some (res, w')
    /\ maps w' = maps (example_pair SyncFire None)
    /\ last (trace w')
       = Some (EvIndex name "log"
                 (WireDocument "web-1" "2017-03-01T10:00:01Z" "retrying" None
                               "WARNING")
                 done res).
Proof.
  assert (Hno : forall (l : loc) (m : gmap string value) (err : error),
            Entry_Data example_entry2 = Some l ->
            maps (example_pair SyncFire None) !! l = Some m ->
            m !! logrus_ErrorKey <> Some (VError err))
    by (intros l m err Hd; discriminate Hd).
  exact (X12_no_error_value_no_change (lib := example_lib) 0%nat 4%nat ""
           (example_pair SyncFire None) (example_hook SyncFire None)
           example_entry2 eq_refl eq_refl eq_refl Hno).
Defined.

(** Both records fired in turn on a synchronous hook. *)
Lemma X13_sync_order_witness :
  exists rs w',
    fire_all 0%nat [3%nat; 4%nat] (example_pair SyncFire None) = Some (rs, w')
    /\ length rs = 2%nat
    /\ written_messages (trace w') = ["disk full"; "retrying"].
Proof.
  assert (Hes : Forall (fun entry : loc =>
                          is_Some (entries (example_pair SyncFire None) !! entry))
                       [3%nat; 4%nat])
    by (repeat constructor; eexists; reflexivity).
  destruct (X13_sync_fire_keeps_order (lib := example_lib) 0%nat [3%nat; 4%nat]
              (example_pair SyncFire None) (example_hook SyncFire None)
              eq_refl eq_refl eq_refl Hes)
    as (rs & w' & Hrun & Hlen & Hmsgs & _).
  exists rs, w'. split; [exact Hrun|]. split; [exact Hlen | exact Hmsgs].
Defined.

(** Both records fired on an asynchronous hook, the second goroutine
    scheduled first. *)
Lemma X14_async_order_witness :
  exists w',
    (Fire 0%nat 3%nat ;; Fire 0%nat 4%nat ;;
     run_goroutine 1 ;; run_goroutine 0) (example_pair AsyncFire None)
    = Some (tt, w')
    /\ written_messages (trace w') = ["retrying"; "disk full"].
Proof.
  exact (proj2 (X14_async_order_is_the_schedulers (lib := example_lib)
                  0%nat 3%nat 4%nat (example_pair AsyncFire None)
                  (example_hook AsyncFire None) example_entry example_entry2
                  eq_refl eq_refl eq_refl eq_refl eq_refl)).
Defined.

(** A record pointer that points nowhere. *)
Lemma X15_nil_record_witness :
  Fire 0%nat 9%nat (example_ready SyncFire None) = None
  /\ (exists w',
        Fire 0%nat 9%nat (example_ready AsyncFire None) = Some (None, w')
        /\ run_goroutine 0 w' = None).
Proof.
  split.
  - exact (proj1 (X15_nil_record 0%nat 9%nat (example_ready SyncFire None)
                    (example_hook SyncFire None) eq_refl eq_refl) eq_refl).
  - destruct (proj2 (X15_nil_record 0%nat 9%nat (example_ready AsyncFire None)
                       (example_hook AsyncFire None) eq_refl eq_refl) eq_refl)
      as (w' & Hfire & _ & Hrun).
    exists w'. split; [exact Hfire | exact Hrun].
Defined.

(** The caller renames the user after [Fire] has returned. *)
Lemma X16_later_assignment_witness :
  exists w',
    (Fire 0%nat 3%nat ;; map_assign 7%nat "user" (VString "bob") ;;
     run_goroutine 0) (example_ready AsyncFire None) = Some (tt, w')
    /\ written_bodies (trace w')
       = [WireDocument "web-1" "2017-03-01T10:00:00.000000001Z" "disk full"
            (Some (normalisedFields (<["user" := VString "bob"]> example_fields)))
            "INFO"]
    /\ normalisedFields (<["user" := VString "bob"]> example_fields) !! "user"
       = Some (VString "bob").
Proof.
  destruct (X16_async_write_sees_later_assignment (lib := example_lib)
              0%nat 3%nat (example_ready AsyncFire None)
              (example_hook AsyncFire None) example_entry 7%nat example_fields
              "user" (VString "bob") eq_refl eq_refl eq_refl eq_refl eq_refl eq_refl)
    as (w' & Hrun & Hbodies & Hseen).
  exists w'. split; [exact Hrun|]. split; [exact Hbodies|].
  apply Hseen. discriminate.
Defined.

(** Two hooks over the same backend; the first is cancelled, the second
    fired. *)
Lemma X17_two_hooks_witness :
  exists res w',
    (rA <- @NewElasticHook string string unit example_lib
             (stub_client (true, None) (None, None) None)
             "web-1" logrus_WarnLevel "logs-a" ;;
     rB <- @NewElasticHook string string unit example_lib
             (stub_client (true, None) (None, None) None)
             "web-2" logrus_DebugLevel "logs-b" ;;
     match fst rA, fst rB with
     | Some hookA, Some hookB => Cancel hookA ;; Fire hookB 3%nat
     | _, _ => ret None
     end) example_world = Some (res, w')
    /\ ctxs w' = [true; false]
    /\ write_targets (trace w') = ["logs-b"]
    /\ write_ctx_flags (trace w') = [false].
Proof.
  exact (X17_hooks_cancel_independently (lib := example_lib)
           (stub_client (true, None) (None, None) None)
           (stub_client (true, None) (None, None) None)
           "web-1" "web-2" logrus_WarnLevel logrus_DebugLevel "logs-a" "logs-b"
           example_world tt tt 3%nat example_entry eq_refl eq_refl eq_refl).
Defined.

(** The record with the error "boom" and the composer [message_only]. *)
Lemma X18_composer_fields_witness :
  exists fields name done res w',
    syncFireFunc 3%nat 0%nat "" (example_ready SyncFire None) = Some (res, w')
    /\ last (trace w')
       = Some (EvIndex name "log"
                 (serialise (messageCreator (example_hook SyncFire None)
                               example_entry fields "web-1") (maps w'))
                 done res)
    /\ fields = Some 7%nat ≫= (fun l => maps w' !! l).
Proof.
  destruct (X18_composer_sees_normalised_fields 0%nat 3%nat ""
              (example_ready SyncFire None) (example_hook SyncFire None)
              example_entry eq_refl eq_refl)
    as (fields & name & done & res & w' & Hrun & Hlast & Hfields & _).
  exists fields, name, done, res, w'.
  split; [exact Hrun|]. split; [exact Hlast | exact Hfields].
Defined.
